(** * iot-xray-system: ingestion pipeline, metrics and persistence gateway

    A shallow embedding of the TypeScript services of the repository:

    - [RabbitMQService]  (rabbitmq.service.ts): publisher and consumer;
    - [SignalsService]   (signals.service.ts): metrics calculator, ingestion
      handler and the query side of the persistence gateway;
    - [SignalSchema]     (schemas/signal.schema.ts): the pre-save middleware;
    - [ProducerService]  (producer.service.ts): the device simulator.

    JavaScript numbers that hold measurements (latitude, longitude, speed and
    the values derived from them) are IEEE-754 binary64 values, embedded as
    Rocq's primitive floats.  Numbers that hold counts and millisecond
    timestamps are integers in every run of the program and are embedded as
    [Z].  Promises are embedded by their settled outcome. *)

From Stdlib Require Import ZArith List Floats Lia.
From stdpp Require Import base option list gmap strings.
Import ListNotations.

Local Open Scope Z_scope.

(** ** JavaScript primitives used by the services *)

Module JS.

(** [arr[i]]: [undefined] (here [None]) when [i] is out of range or when the
    slot itself holds [undefined]. *)
Definition index {A : Type} (arr : list (option A)) (i : nat) : option A :=
  match arr !! i with
  | Some (Some v) => Some v
  | _ => None
  end.

(** Truthiness of a number that is an integer: only [0] is falsy. *)
Definition truthy (n : Z) : bool := negb (n =? 0).

(** Truthiness of an optional number: [undefined] and [0] are falsy. *)
Definition truthy_opt (n : option Z) : bool :=
  match n with
  | Some v => truthy v
  | None => false
  end.

(** Truthiness of an optional string: [undefined] and [''] are falsy. *)
Definition truthy_str (s : option string) : bool :=
  match s with
  | Some EmptyString => false
  | Some _ => true
  | None => false
  end.

(** [n] as a binary64 number, rounded to nearest even. *)
Definition of_Z (n : Z) : float :=
  SF2Prim (SpecFloat.binary_normalize prec emax n 0 false).

(** [arr.length] as a binary64 number. *)
Definition length_f {A : Type} (arr : list A) : float :=
  of_Z (Z.of_nat (length arr)).

(** [sum + x] where [x] may be [undefined]: [Number(undefined)] is [NaN]. *)
Definition add_undef (sum : float) (x : option float) : float :=
  match x with
  | Some v => (sum + v)%float
  | None => nan
  end.

(** [arr.reduce((sum, x) => sum + x, 0)]. *)
Definition sum (arr : list float) : float :=
  fold_left (fun acc x => (acc + x)%float) arr zero.

(** [Math.max(...arr)], ECMAScript 21.3.2.24: the result starts at
    [-Infinity], any [NaN] argument makes it [NaN], and [+0] is larger
    than [-0]. *)
Fixpoint max_from (highest : float) (arr : list float) : float :=
  match arr with
  | [] => highest
  | x :: rest =>
      if is_nan x then nan
      else if (highest <? x)%float
              || (is_zero highest && is_zero x
                  && get_sign highest && negb (get_sign x))
           then max_from x rest
           else max_from highest rest
  end.

Definition Math_max (arr : list float) : float := max_from neg_infinity arr.

(** [Math.min(...arr)], ECMAScript 21.3.2.25: dual of [Math.max]. *)
Fixpoint min_from (lowest : float) (arr : list float) : float :=
  match arr with
  | [] => lowest
  | x :: rest =>
      if is_nan x then nan
      else if (x <? lowest)%float
              || (is_zero lowest && is_zero x
                  && negb (get_sign lowest) && get_sign x)
           then min_from x rest
           else min_from lowest rest
  end.

Definition Math_min (arr : list float) : float := min_from infinity arr.

(** [Math.round(x)], ECMAScript 21.3.2.28: the integer nearest to [x], ties
    going towards [+Infinity]; [NaN], the infinities, the zeros and the
    integers are returned unchanged, and a value in [[-0.5, 0)] gives
    [-0]. *)
Definition Math_round (x : float) : float :=
  match Prim2SF x with
  | S754_finite s m e =>
      if (0 <=? e)%Z then x
      else
        let den := Z.pow 2 (- e) in
        let num := if s then (- Z.pos m) else Z.pos m in
        let k := (2 * num + den) / (2 * den) in
        if (k =? 0)%Z then (if s then neg_zero else zero) else of_Z k
  | _ => x
  end.

End JS.

(** ** Data model (rabbitmq.service.ts, xray-data.dto.ts) *)

(** One data point [[relativeTimestamp, [latitude, longitude, speed]]].  The
    position is an array whose slots may be missing or [undefined]: the
    calculator guards against that, and the service's tests exercise it. *)
Record sample := mkSample {
  offset : Z;
  position : list (option float)
}.

(** A complete triple: exactly three components, all present. *)
Definition complete_triple (s : sample) : bool :=
  match position s with
  | [Some _; Some _; Some _] => true
  | _ => false
  end.

(** [interface XRayData]: the Reading, as published and as decoded. *)
Record XRayData := mkXRayData {
  deviceId : string;
  data : list sample;
  time : Z
}.

(** [class CreateSignalDto]: what the Metrics Calculator produces. *)
Record CreateSignalDto := mkCreateSignalDto {
  dto_deviceId : string;
  dto_timestamp : Z;
  dto_data : list sample;
  dto_dataLength : Z;
  dto_dataVolume : Z;
  dto_averageSpeed : float;
  dto_maxSpeed : float;
  dto_minSpeed : float;
  dto_coordinates : float * float
}.

(** ** Metrics Calculator: [SignalsService.calculateSignalMetrics] *)

Module Metrics.

(** [data.reduce((total, [, coordinates]) => total + coordinates.length, 0)] *)
Definition dataVolume_of (data : list sample) : Z :=
  fold_left (fun total s => total + Z.of_nat (length (position s))) data 0.

(** [data.map(([, c]) => c[2]).filter((speed) => speed !== undefined)] *)
Definition speeds_of (data : list sample) : list float :=
  omap (fun s => JS.index (position s) 2) data.

(** [data.map(([, c]) => [c[0], c[1]])
        .filter((coord) => coord[0] !== undefined && coord[1] !== undefined)] *)
Definition validCoordinates_of (data : list sample) : list (float * float) :=
  omap (fun s =>
          match JS.index (position s) 0, JS.index (position s) 1 with
          | Some lat, Some lng => Some (lat, lng)
          | _, _ => None
          end) data.

Definition calculateSignalMetrics (xrayData : XRayData) : CreateSignalDto :=
  let dataLength := Z.of_nat (length (data xrayData)) in
  let dataVolume := dataVolume_of (data xrayData) in
  let speeds := speeds_of (data xrayData) in
  let averageSpeed :=
    if (0 <? Z.of_nat (length speeds))%Z
    then (JS.sum speeds / JS.length_f speeds)%float
    else zero in
  let maxSpeed :=
    if (0 <? Z.of_nat (length speeds))%Z then JS.Math_max speeds else zero in
  let minSpeed :=
    if (0 <? Z.of_nat (length speeds))%Z then JS.Math_min speeds else zero in
  let validCoordinates := validCoordinates_of (data xrayData) in
  let avgCoordinates :=
    if (0 <? Z.of_nat (length validCoordinates))%Z
    then ((JS.sum (map fst validCoordinates)
           / JS.length_f validCoordinates)%float,
          (JS.sum (map snd validCoordinates)
           / JS.length_f validCoordinates)%float)
    else (zero, zero) in
  {| dto_deviceId := deviceId xrayData;
     dto_timestamp := time xrayData;
     dto_data := data xrayData;
     dto_dataLength := dataLength;
     dto_dataVolume := dataVolume;
     dto_averageSpeed := averageSpeed;
     dto_maxSpeed := maxSpeed;
     dto_minSpeed := minSpeed;
     dto_coordinates := avgCoordinates |}.

End Metrics.

(** The Reading of the spec's scenario. *)
Definition scenario_reading : XRayData :=
  {| deviceId := "d1";
     data := [ mkSample 762 [Some 51.339764; Some 12.339223; Some 1.2038]%float;
               mkSample 1766 [Some 51.339777; Some 12.339211; Some 1.531604]%float ];
     time := 1735683480000 |}.

(** ** Outcomes, logging and the process state *)

(** The [Error] values the services throw or reject with. *)
Inductive Error :=
| ChannelNotInitialized            (* new Error('Channel not initialized') *)
| PublishFailed                    (* thrown by [channel.publish] *)
| DeviceNotFound (deviceId : string)
| JsonSyntaxError                  (* thrown by [JSON.parse] *)
| StoreFailure.                    (* rejection of a document-store call *)

(** The outcome of a call: a returned value (a fulfilled promise) or a thrown
    error (a rejected promise). *)
Inductive Result (A : Type) :=
| Ok (a : A)
| Throw (e : Error).
Arguments Ok {A} a.
Arguments Throw {A} e.

(** Calls on the NestJS [Logger]. *)
Inductive LogEntry :=
| LogInfo (msg : string)
| LogWarn (msg : string)
| LogError (msg : string).

(** A message delivered by the broker.  [JSON.parse] either yields a Reading
    or throws. *)
Inductive Payload :=
| Json (content : XRayData)
| NotJson (raw : string).

Record Message := mkMessage {
  deliveryTag : Z;
  content : Payload
}.

(** [channel.ack(msg)] and [channel.nack(msg, allUpTo, requeue)]. *)
Inductive Settlement :=
| Ack (msg : Message)
| Nack (msg : Message) (allUpTo requeue : bool).

(** The amqplib channel, seen through the calls the service makes on it. *)
Record Channel := mkChannel {
  published : list XRayData;       (* handed to [channel.publish], oldest first *)
  settlements : list Settlement;   (* [ack]/[nack] calls, oldest first *)
  publish_throws : bool            (* [channel.publish] throws or rejects *)
}.

(** A [Signal] document.  Optional paths of the schema, and paths the
    pre-save middleware tests for presence, are options. *)
Record Signal := mkSignal {
  sig_deviceId : string;
  sig_timestamp : Z;
  sig_data : list sample;
  sig_dataLength : option Z;
  sig_dataVolume : option Z;
  sig_averageSpeed : option float;
  sig_maxSpeed : option float;
  sig_minSpeed : option float;
  sig_coordinates : option (float * float);
  sig_createdAt : Z;
  sig_updatedAt : Z
}.

(** The [signals] collection behind [signalModel]: its documents in insertion
    order, and whether the store answers at all. *)
Record Store := mkStore {
  docs : list Signal;
  reachable : bool
}.

(** The state the services share: [RabbitMQService.channel], the document
    store, the logger output and the wall clock read by [Date.now()]. *)
Record World := mkWorld {
  channel : option Channel;
  store : Store;
  logs : list LogEntry;
  clock : Z
}.

Definition log (e : LogEntry) (w : World) : World :=
  mkWorld (channel w) (store w) (logs w ++ [e]) (clock w).

Definition set_channel (c : option Channel) (w : World) : World :=
  mkWorld c (store w) (logs w) (clock w).

Definition set_store (s : Store) (w : World) : World :=
  mkWorld (channel w) s (logs w) (clock w).

(** [await new Promise((resolve) => setTimeout(resolve, ms))] *)
Definition sleep (ms : Z) (w : World) : World :=
  mkWorld (channel w) (store w) (logs w) (clock w + ms).

(** The messages handed to the channel so far. *)
Definition published_of (w : World) : list XRayData :=
  match channel w with
  | Some ch => published ch
  | None => []
  end.

(** The acknowledgements made on the channel so far. *)
Definition settlements_of (w : World) : list Settlement :=
  match channel w with
  | Some ch => settlements ch
  | None => []
  end.

(** ** Publisher and Consumer: [RabbitMQService] *)

Module RabbitMQService.

(** [publishXRayData(data)] *)
Definition publishXRayData (d : XRayData) (w : World) : Result unit * World :=
  match channel w with
  | None => (Throw ChannelNotInitialized, w)
  | Some ch =>
      if publish_throws ch
      then (Throw PublishFailed,
            log (LogError "Failed to publish X-ray data:") w)
      else (Ok tt,
            log (LogInfo (String.append "Published X-ray data for device: "
                                        (deviceId d)))
                (set_channel
                   (Some (mkChannel (published ch ++ [d]) (settlements ch)
                                    (publish_throws ch))) w))
  end.

(** [this.channel?.ack(msg)] *)
Definition ack (msg : Message) (w : World) : World :=
  match channel w with
  | None => w
  | Some ch =>
      set_channel
        (Some (mkChannel (published ch) (settlements ch ++ [Ack msg])
                         (publish_throws ch))) w
  end.

(** [this.channel?.nack(msg, allUpTo, requeue)] *)
Definition nack (msg : Message) (allUpTo requeue : bool) (w : World) : World :=
  match channel w with
  | None => w
  | Some ch =>
      set_channel
        (Some (mkChannel (published ch)
                         (settlements ch ++ [Nack msg allUpTo requeue])
                         (publish_throws ch))) w
  end.

(** [JSON.parse(msg.content.toString()) as XRayData] *)
Definition JSON_parse (p : Payload) : Result XRayData :=
  match p with
  | Json d => Ok d
  | NotJson _ => Throw JsonSyntaxError
  end.

(** A listener registered with [on('xray-data', listener)]: what its call
    does before it returns, and whether it returns or throws. *)
Definition Listener : Type := XRayData -> World -> Result unit * World.

(** [this.emit('xray-data', content)]: the listeners run synchronously, in
    registration order; the first one that throws ends the emit. *)
Fixpoint emit (listeners : list Listener) (d : XRayData) (w : World)
  : Result unit * World :=
  match listeners with
  | [] => (Ok tt, w)
  | l :: rest =>
      match l d w with
      | (Ok _, w') => emit rest d w'
      | (Throw e, w') => (Throw e, w')
      end
  end.

(** The callback handed to [channel.consume] by [startConsumer]. *)
Definition onMessage (listeners : list Listener) (msg : option Message)
  (w : World) : World :=
  match msg with
  | None => w
  | Some m =>
      match JSON_parse (content m) with
      | Ok d =>
          let w1 :=
            log (LogInfo (String.append "Received X-ray data from device: "
                                        (deviceId d))) w in
          match emit listeners d w1 with
          | (Ok _, w2) => ack m w2
          | (Throw _, w2) =>
              nack m false true (log (LogError "Error processing message:") w2)
          end
      | Throw _ =>
          nack m false true (log (LogError "Error processing message:") w)
      end
  end.

End RabbitMQService.

(** ** Pre-save middleware: [SignalSchema.pre('save', ...)] *)

Module SignalSchema.

(** [this.data.reduce((sum, [, coords]) => sum + coords[i], 0)] *)
Definition total (i : nat) (data : list sample) : float :=
  fold_left (fun sum s => JS.add_undef sum (JS.index (position s) i))
            data zero.

Definition preSave (this : Signal) : Signal :=
  let dataVolume :=
    match sig_dataLength this with
    | Some n =>
        if JS.truthy n
           && negb (bool_decide (sig_dataVolume this = Some (n * 3)))
        then Some (n * 3)
        else sig_dataVolume this
    | None => sig_dataVolume this
    end in
  let coordinates :=
    match sig_coordinates this with
    | None =>
        if (0 <? Z.of_nat (length (sig_data this)))%Z
        then Some ((total 0 (sig_data this) / JS.length_f (sig_data this))%float,
                   (total 1 (sig_data this) / JS.length_f (sig_data this))%float)
        else None
    | Some c => Some c
    end in
  mkSignal (sig_deviceId this) (sig_timestamp this) (sig_data this)
           (sig_dataLength this) dataVolume
           (sig_averageSpeed this) (sig_maxSpeed this) (sig_minSpeed this)
           coordinates (sig_createdAt this) (sig_updatedAt this).

End SignalSchema.

(** ** The document store behind [signalModel] (Mongoose model of [Signal]) *)

Module SignalModel.

(** The document built from a DTO, stamped by [timestamps: true]. *)
Definition document_of (dto : CreateSignalDto) (now : Z) : Signal :=
  mkSignal (dto_deviceId dto) (dto_timestamp dto) (dto_data dto)
           (Some (dto_dataLength dto)) (Some (dto_dataVolume dto))
           (Some (dto_averageSpeed dto)) (Some (dto_maxSpeed dto))
           (Some (dto_minSpeed dto)) (Some (dto_coordinates dto)) now now.

(** [signalModel.create(dto)]: the document goes through the pre-save
    middleware and is appended to the collection; an unreachable store
    rejects. *)
Definition create (dto : CreateSignalDto) (w : World) : Result Signal * World :=
  if reachable (store w)
  then
    let doc := SignalSchema.preSave (document_of dto (clock w)) in
    (Ok doc, set_store (mkStore (docs (store w) ++ [doc]) true) w)
  else (Throw StoreFailure, w).

(** A query under construction: [find()], [where('deviceId', v)],
    [where('timestamp').gte(a).lte(b)], [limit(n)], [skip(n)]. *)
Record Query := mkQuery {
  q_deviceId : option string;
  q_timestamp : option (Z * Z);
  q_limit : option Z;
  q_skip : option Z
}.

Definition find : Query := mkQuery None None None None.

Definition where_deviceId (v : string) (q : Query) : Query :=
  mkQuery (Some v) (q_timestamp q) (q_limit q) (q_skip q).

Definition where_timestamp_gte_lte (a b : Z) (q : Query) : Query :=
  mkQuery (q_deviceId q) (Some (a, b)) (q_limit q) (q_skip q).

Definition limit (n : Z) (q : Query) : Query :=
  mkQuery (q_deviceId q) (q_timestamp q) (Some n) (q_skip q).

Definition skip (n : Z) (q : Query) : Query :=
  mkQuery (q_deviceId q) (q_timestamp q) (q_limit q) (Some n).

(** Whether a document satisfies the conditions of a query. *)
Definition selects (q : Query) (d : Signal) : bool :=
  match q_deviceId q with
  | Some v => bool_decide (sig_deviceId d = v)
  | None => true
  end
  && match q_timestamp q with
     | Some (a, b) => (a <=? sig_timestamp d) && (sig_timestamp d <=? b)
     | None => true
     end.

(** [query.exec()]: the selected documents, then [skip], then [limit]. *)
Definition exec (q : Query) (s : Store) : Result (list Signal) :=
  if reachable s
  then
    let selected := List.filter (selects q) (docs s) in
    let skipped :=
      match q_skip q with
      | Some n => drop (Z.to_nat n) selected
      | None => selected
      end in
    Ok match q_limit q with
       | Some n => take (Z.to_nat n) skipped
       | None => skipped
       end
  else Throw StoreFailure.

(** The single document produced by the [$group] stage with [_id: null]. *)
Record Group := mkGroup {
  g_totalSignals : Z;                  (* { $sum: 1 } *)
  g_totalDevices : list string;        (* { $addToSet: '$deviceId' } *)
  g_averageDataLength : option float;  (* { $avg: '$dataLength' } *)
  g_averageDataVolume : option float;  (* { $avg: '$dataVolume' } *)
  g_averageSpeed : option float;       (* { $avg: '$averageSpeed' } *)
  g_maxSpeed : option float;           (* { $max: '$maxSpeed' } *)
  g_minSpeed : option float            (* { $min: '$minSpeed' } *)
}.

(** [$avg]: the mean of the values that are present, [null] when none is. *)
Definition avg (values : list (option float)) : option float :=
  match omap id values with
  | [] => None
  | v :: vs => Some (JS.sum (v :: vs) / JS.length_f (v :: vs))%float
  end.

(** [$max] and [$min]: over the values that are present, [null] when none
    is. *)
Definition max (values : list (option float)) : option float :=
  match omap id values with
  | [] => None
  | v :: vs => Some (fold_left (fun a b => if (a <? b)%float then b else a) vs v)
  end.

Definition min (values : list (option float)) : option float :=
  match omap id values with
  | [] => None
  | v :: vs => Some (fold_left (fun a b => if (b <? a)%float then b else a) vs v)
  end.

(** The [$match] stage: [{}] or [{ deviceId }]. *)
Definition matches (matchStage : option string) (d : Signal) : bool :=
  match matchStage with
  | Some v => bool_decide (sig_deviceId d = v)
  | None => true
  end.

Definition group (matched : list Signal) : Group :=
  mkGroup (Z.of_nat (length matched))
          (remove_dups (map sig_deviceId matched))
          (avg (map (fun d => JS.of_Z <$> sig_dataLength d) matched))
          (avg (map (fun d => JS.of_Z <$> sig_dataVolume d) matched))
          (avg (map sig_averageSpeed matched))
          (max (map sig_maxSpeed matched))
          (min (map sig_minSpeed matched)).

(** [signalModel.aggregate([{ $match }, { $group }])]: no document when
    nothing matches, one group document otherwise. *)
Definition aggregate (matchStage : option string) (s : Store)
  : Result (list Group) :=
  if reachable s
  then
    match List.filter (matches matchStage) (docs s) with
    | [] => Ok []
    | d :: ds => Ok [group (d :: ds)]
    end
  else Throw StoreFailure.

End SignalModel.

(** ** Ingestion handler and persistence gateway: [SignalsService] *)

(** [class SignalFilterDto] *)
Record SignalFilterDto := mkFilter {
  f_deviceId : option string;
  f_startTime : option Z;
  f_endTime : option Z;
  f_limit : option Z;
  f_skip : option Z
}.

(** [interface SignalStatistics]; the two extrema are handed over from the
    aggregation as they are and may be [null]. *)
Record SignalStatistics := mkStatistics {
  totalSignals : Z;
  totalDevices : Z;
  averageDataLength : float;
  averageDataVolume : float;
  averageSpeed : float;
  maxSpeed : option float;
  minSpeed : option float
}.

Module SignalsService.

(** [createSignal(dto)] *)
Definition createSignal (dto : CreateSignalDto) (w : World)
  : Result Signal * World :=
  match SignalModel.create dto w with
  | (Ok doc, w') => (Ok doc, w')
  | (Throw e, w') => (Throw e, log (LogError "Error creating signal:") w')
  end.

(** [processXRayData(xrayData)]: the settled outcome of the promise. *)
Definition processXRayData (xrayData : XRayData) (w : World)
  : Result Signal * World :=
  let signalData := Metrics.calculateSignalMetrics xrayData in
  match createSignal signalData w with
  | (Ok doc, w') => (Ok doc, w')
  | (Throw e, w') => (Throw e, log (LogError "Error processing X-ray data:") w')
  end.

(** The listener registered by [onModuleInit]:
    [(data) => { this.processXRayData(data).catch((error) => log) }].
    The promise is not awaited and its rejection is caught, so the listener
    returns normally whatever the outcome. *)
Definition onXRayData : RabbitMQService.Listener :=
  fun d w =>
    match processXRayData d w with
    | (Ok _, w') => (Ok tt, w')
    | (Throw _, w') => (Ok tt, log (LogError "Error processing X-ray data:") w')
    end.

(** The time-range guard [filter?.startTime && filter?.endTime]. *)
Definition range_of (filter : option SignalFilterDto) : option (Z * Z) :=
  match filter with
  | Some f =>
      match f_startTime f, f_endTime f with
      | Some a, Some b =>
          if JS.truthy a && JS.truthy b then Some (a, b) else None
      | _, _ => None
      end
  | None => None
  end.

(** The query [findAll] builds before [exec]. *)
Definition findAll_query (filter : option SignalFilterDto) : SignalModel.Query :=
  let q0 := SignalModel.find in
  let q1 :=
    match filter with
    | Some f =>
        if JS.truthy_str (f_deviceId f)
        then SignalModel.where_deviceId (default EmptyString (f_deviceId f)) q0
        else q0
    | None => q0
    end in
  let q2 :=
    match range_of filter with
    | Some (a, b) => SignalModel.where_timestamp_gte_lte a b q1
    | None => q1
    end in
  let q3 :=
    match filter with
    | Some f =>
        if JS.truthy_opt (f_limit f)
        then SignalModel.limit (default 0 (f_limit f)) q2
        else q2
    | None => q2
    end in
  match filter with
  | Some f =>
      if JS.truthy_opt (f_skip f)
      then SignalModel.skip (default 0 (f_skip f)) q3
      else q3
  | None => q3
  end.

(** [findAll(filter?)] *)
Definition findAll (filter : option SignalFilterDto) (w : World)
  : Result (list Signal) * World :=
  match SignalModel.exec (findAll_query filter) (store w) with
  | Ok found => (Ok found, w)
  | Throw e => (Throw e, log (LogError "Error finding signals:") w)
  end.

(** [Math.round(x * 100) / 100], with [null * 100] being [0]. *)
Definition round2 (x : option float) : float :=
  (JS.Math_round (default zero x * 100) / 100)%float.

Definition no_statistics : SignalStatistics :=
  mkStatistics 0 0 zero zero zero (Some zero) (Some zero).

(** The [$match] stage [getStatistics] builds. *)
Definition matchStage_of (deviceId : option string) : option string :=
  if JS.truthy_str deviceId then deviceId else None.

(** [getStatistics(deviceId?)] *)
Definition getStatistics (deviceId : option string) (w : World)
  : Result SignalStatistics * World :=
  match SignalModel.aggregate (matchStage_of deviceId) (store w) with
  | Ok [] => (Ok no_statistics, w)
  | Ok (stats :: _) =>
      (Ok (mkStatistics
             (SignalModel.g_totalSignals stats)
             (Z.of_nat (length (SignalModel.g_totalDevices stats)))
             (round2 (SignalModel.g_averageDataLength stats))
             (round2 (SignalModel.g_averageDataVolume stats))
             (round2 (SignalModel.g_averageSpeed stats))
             (SignalModel.g_maxSpeed stats)
             (SignalModel.g_minSpeed stats)), w)
  | Throw e => (Throw e, log (LogError "Error getting statistics:") w)
  end.

End SignalsService.

(** ** Device Simulator: [ProducerService] *)

(** An entry of [interface XRayDataFile]. *)
Record DeviceData := mkDeviceData {
  dev_data : list sample;
  dev_time : Z
}.

(** [class ProducerService]: the catalog and the registry of running
    simulations (device id to timer handle). *)
Record ProducerService := mkProducer {
  xrayData : gmap string DeviceData;
  simulationIntervals : gmap string nat;
  nextTimer : nat
}.

(** What the closure of a running simulation holds. *)
Record Simulation := mkSimulation {
  sim_deviceId : string;
  sim_deviceData : DeviceData;
  sim_intervalId : nat;
  dataIndex : nat
}.

Module ProducerService.

(** [simulateDevice(deviceId, interval)] up to the return of the cleanup
    function: the device is looked up, the timer is started with the cursor
    at [0] and is entered in the registry. *)
Definition simulateDevice (deviceId : string) (interval : Z)
  (this : ProducerService) (w : World)
  : Result Simulation * ProducerService * World :=
  let w1 :=
    log (LogInfo (String.append "Starting simulation for device: " deviceId)) w in
  match xrayData this !! deviceId with
  | None => (Throw (DeviceNotFound deviceId), this, w1)
  | Some deviceData =>
      let intervalId := nextTimer this in
      (Ok (mkSimulation deviceId deviceData intervalId 0),
       mkProducer (xrayData this)
                  (<[deviceId := intervalId]> (simulationIntervals this))
                  (S intervalId),
       w1)
  end.

(** One firing of the timer callback of [simulateDevice].  For an empty
    sequence the script computes the index [0 % 0 = NaN] and publishes a
    Reading whose single entry is [undefined]; a Reading of the declared
    type cannot carry that entry, and the embedding gives no result
    ([None]) there. *)
Definition tick (sim : Simulation) (w : World) : option (Simulation * World) :=
  let sequence := dev_data (sim_deviceData sim) in
  match sequence !! (dataIndex sim mod length sequence)%nat with
  | Some currentData =>
      let xrayData := mkXRayData (sim_deviceId sim) [currentData] (clock w) in
      match RabbitMQService.publishXRayData xrayData w with
      | (Ok _, w1) =>
          Some (mkSimulation (sim_deviceId sim) (sim_deviceData sim)
                             (sim_intervalId sim) (S (dataIndex sim)),
                log (LogInfo (String.append "Sent data for device: "
                                            (sim_deviceId sim))) w1)
      | (Throw _, w1) =>
          Some (sim,
                log (LogError (String.append "Error sending data for device "
                                             (sim_deviceId sim))) w1)
      end
  | None => None
  end.

(** [n] consecutive firings, [interval] milliseconds apart. *)
Fixpoint run_ticks (n : nat) (interval : Z) (sim : Simulation) (w : World)
  : option (Simulation * World) :=
  match n with
  | O => Some (sim, w)
  | S n' =>
      match tick sim (sleep interval w) with
      | Some (sim', w') => run_ticks n' interval sim' w'
      | None => None
      end
  end.

(** [sendSingleMessage(deviceId)] *)
Definition sendSingleMessage (deviceId : string) (this : ProducerService)
  (w : World) : Result unit * World :=
  match xrayData this !! deviceId with
  | None => (Throw (DeviceNotFound deviceId), w)
  | Some deviceData =>
      let xrayData := mkXRayData deviceId (dev_data deviceData) (clock w) in
      match RabbitMQService.publishXRayData xrayData w with
      | (Ok _, w1) =>
          (Ok tt,
           log (LogInfo (String.append "Sent single message for device: "
                                       deviceId)) w1)
      | (Throw e, w1) => (Throw e, w1)
      end
  end.

(** The inner loop of [sendBulkMessages]:
    [for (let i = 0; i < count; i++) { await send; await delay(100) }]. *)
Fixpoint send_repeatedly (count : nat) (deviceId : string)
  (this : ProducerService) (w : World) : Result unit * World :=
  match count with
  | O => (Ok tt, w)
  | S count' =>
      match sendSingleMessage deviceId this w with
      | (Ok _, w1) => send_repeatedly count' deviceId this (sleep 100 w1)
      | (Throw e, w1) => (Throw e, w1)
      end
  end.

(** [sendBulkMessages(deviceIds, count)] *)
Fixpoint sendBulkMessages (deviceIds : list string) (count : nat)
  (this : ProducerService) (w : World) : Result unit * World :=
  match deviceIds with
  | [] => (Ok tt, w)
  | deviceId :: rest =>
      match xrayData this !! deviceId with
      | None =>
          sendBulkMessages rest count this
            (log (LogWarn (String.append "Device "
                             (String.append deviceId " not found, skipping"))) w)
      | Some _ =>
          match send_repeatedly count deviceId this w with
          | (Ok _, w1) => sendBulkMessages rest count this w1
          | (Throw e, w1) => (Throw e, w1)
          end
      end
  end.

End ProducerService.

(** ** Notions used to state the properties *)

(** A sample that carries both a latitude and a longitude. *)
Definition has_lat_lng (s : sample) : bool :=
  match JS.index (position s) 0, JS.index (position s) 1 with
  | Some _, Some _ => true
  | _, _ => false
  end.



(** The publisher can hand a message over: a channel exists and its
    [publish] does not throw. *)
Definition publisher_ready (w : World) : bool :=
  match channel w with
  | Some ch => negb (publish_throws ch)
  | None => false
  end.

(** What a published Reading carries besides its timestamp. *)
Definition payload (d : XRayData) : string * list sample :=
  (deviceId d, data d).

(** The warnings among the logger's output. *)
Definition warnings_of (entries : list LogEntry) : list string :=
  omap (fun e => match e with LogWarn msg => Some msg | _ => None end) entries.



(** Round-robin: the payloads of [n] ticks, the first of them with the cursor
    at [start], each carrying the one sample at the cursor modulo the length
    of the sequence. *)
Definition round_robin (id : string) (sequence : list sample)
  (start n : nat) : list (string * list sample) :=
  map (fun k => (id, option_list (sequence !! (k mod length sequence)%nat)))
      (seq start n).

(** ** Concrete states used to evaluate the services *)

(** The value the calculator produces for the scenario Reading. *)
Definition scenario_metrics : CreateSignalDto :=
  mkCreateSignalDto "d1" 1735683480000 (data scenario_reading) 2 6
    1.367702%float 1.531604%float 1.2038%float
    (51.3397705%float, 12.339217000000001%float).

(** The Readings of the service's own unit tests
    (signals.service.spec.ts). *)
Definition service_test_reading : XRayData :=
  mkXRayData "test-device-123"
    [ mkSample 1234567890 [Some 51.339764; Some 12.339223; Some 1.2038]%float;
      mkSample 1234567891 [Some 51.339777; Some 12.339211; Some 1.5316]%float;
      mkSample 1234567892 [Some 51.339782; Some 12.339196; Some 2.13906]%float ]
    1735683480000.

Definition missing_speed_reading : XRayData :=
  mkXRayData "test-device-123"
    [ mkSample 1234567890 [Some 51.339764; Some 12.339223; None]%float;
      mkSample 1234567891 [Some 51.339777; Some 12.339211; Some 1.5316]%float ]
    1735683480000.

(** A process that has not connected: no channel, an empty, reachable
    store. *)
Definition disconnected_world : World :=
  mkWorld None (mkStore [] true) [] 1735683480000.

(** A connected process: an open channel on which nothing happened yet. *)
Definition open_channel : Channel := mkChannel [] [] false.

Definition connected_world : World :=
  mkWorld (Some open_channel) (mkStore [] true) [] 1735683480000.

(** A connected process whose document store is down. *)
Definition store_down_world : World :=
  mkWorld (Some open_channel) (mkStore [] false) [] 1735683480000.

(** A delivery carrying the scenario Reading. *)
Definition scenario_message : Message := mkMessage 1 (Json scenario_reading).

(** A stored record with the given device and collection time. *)
Definition record_at (device : string) (timestamp : Z) : Signal :=
  mkSignal device timestamp
    [mkSample 762 [Some 51.339764; Some 12.339223; Some 1.2038]%float]
    (Some 1) (Some 3) (Some 1.2038%float) (Some 1.2038%float)
    (Some 1.2038%float) (Some (51.339764%float, 12.339223%float))
    timestamp timestamp.

(** A store holding three records of one device, collected at 50, 150 and
    200 ms. *)
Definition three_records_world : World :=
  mkWorld (Some open_channel)
    (mkStore [record_at "66bb584d4ae73e488c30a072" 50;
              record_at "66bb584d4ae73e488c30a072" 150;
              record_at "66bb584d4ae73e488c30a072" 200] true)
    [] 1735683480000.

(** [{ startTime: 0, endTime: 100 }] *)
Definition from_epoch_filter : SignalFilterDto :=
  mkFilter None (Some 0) (Some 100) None None.

(** [{ startTime: 100, endTime: 180 }] *)
Definition window_filter : SignalFilterDto :=
  mkFilter None (Some 100) (Some 180) None None.



(** The catalog built by [createSampleData], with the device renamed [d1]. *)
Definition sample_device : DeviceData :=
  mkDeviceData
    [ mkSample 762 [Some 51.339764; Some 12.339223833333334;
                    Some 1.2038000000000002]%float;
      mkSample 1766 [Some 51.33977733333333; Some 12.339211833333334;
                     Some 1.531604]%float;
      mkSample 2763 [Some 51.339782; Some 12.339196166666667;
                     Some 2.13906]%float ]
    1735683480000.

Definition sample_producer : ProducerService :=
  mkProducer {[ "d1" := sample_device ]} ∅ 0.

(** * Further operations of the services *)

(** ** Schema validators: the [@Prop] declarations of [class Signal] *)

Module SignalValidation.

(** A character of the class [[a-f0-9]]. *)
Definition is_lower_hex (c : Ascii.ascii) : bool :=
  let n := Ascii.nat_of_ascii c in
  ((48 <=? n)%nat && (n <=? 57)%nat) || ((97 <=? n)%nat && (n <=? 102)%nat).

(** [match: /^[a-f0-9]{24}$/] on [deviceId]. *)
Definition deviceId_matches (s : string) : bool :=
  (String.length s =? 24)%nat && forallb is_lower_hex (String.list_ascii_of_string s).

(** [min: 0] on an optional number path. *)
Definition min_zero (v : option float) : bool :=
  match v with
  | Some x => (zero <=? x)%float
  | None => true
  end.

(** The [validate.validator] of [coordinates]; the array has its two slots
    by type. *)
Definition coordinates_validator (coords : float * float) : bool :=
  ((-90) <=? fst coords)%float && (fst coords <=? 90)%float
  && ((-180) <=? snd coords)%float && (snd coords <=? 180)%float.

(** The validators a document must pass before it is saved: [deviceId]
    matches its pattern, [dataLength] is present and at least [1],
    [dataVolume] is present and at least [3], the three speeds are not
    negative, the coordinates are in range. *)
Definition validates (d : Signal) : bool :=
  deviceId_matches (sig_deviceId d)
  && match sig_dataLength d with Some n => (1 <=? n)%Z | None => false end
  && match sig_dataVolume d with Some n => (3 <=? n)%Z | None => false end
  && min_zero (sig_averageSpeed d)
  && min_zero (sig_maxSpeed d)
  && min_zero (sig_minSpeed d)
  && match sig_coordinates d with
     | Some c => coordinates_validator c
     | None => true
     end.

End SignalValidation.

(** ** [SignalsService.findByDeviceId] *)

Module SignalsQueries.

(** The query [findByDeviceId] builds: [find({ deviceId })], then the same
    time-range and pagination guards as [findAll]. *)
Definition findByDeviceId_query (deviceId : string)
  (filter : option SignalFilterDto) : SignalModel.Query :=
  let q1 := SignalModel.where_deviceId deviceId SignalModel.find in
  let q2 :=
    match SignalsService.range_of filter with
    | Some (a, b) => SignalModel.where_timestamp_gte_lte a b q1
    | None => q1
    end in
  let q3 :=
    match filter with
    | Some f =>
        if JS.truthy_opt (f_limit f)
        then SignalModel.limit (default 0 (f_limit f)) q2
        else q2
    | None => q2
    end in
  match filter with
  | Some f =>
      if JS.truthy_opt (f_skip f)
      then SignalModel.skip (default 0 (f_skip f)) q3
      else q3
  | None => q3
  end.

(** [findByDeviceId(deviceId, filter?)] *)
Definition findByDeviceId (deviceId : string) (filter : option SignalFilterDto)
  (w : World) : Result (list Signal) * World :=
  match SignalModel.exec (findByDeviceId_query deviceId filter) (store w) with
  | Ok found => (Ok found, w)
  | Throw e =>
      (Throw e, log (LogError "Error finding signals by device ID:") w)
  end.

End SignalsQueries.

(** ** Outcomes of the operations below *)

(** A returned value or a thrown error, for operations whose errors are not
    among [Error]. *)
Inductive Outcome (E A : Type) :=
| Returned (a : A)
| Thrown (e : E).
Arguments Returned {E A} a.
Arguments Thrown {E A} e.

(** ** Records by id: [findOne], [updateSignal], [deleteSignal] *)




Module SignalsCrud.









End SignalsCrud.

(** ** Connection lifecycle of [RabbitMQService] *)

(** The amqplib connection, as far as the service looks at it. *)
Record Connection := mkConnection {
  closed : bool
}.

(** The calls the service makes on the broker through the channel. *)
Inductive BrokerCall :=
| AssertExchange (exchange kind : string) (durable : bool)
| AssertQueue (queue : string) (durable : bool)
| BindQueue (queue exchange routingKey : string)
| Consume (queue : string).

(** How the broker answers each awaited call of [connect]. *)
Record Broker := mkBroker {
  connect_resolves : bool;
  createChannel_resolves : bool;
  assertExchange_resolves : bool;
  assertQueue_resolves : bool;
  bindQueue_resolves : bool;
  consume_resolves : bool
}.

(** [RabbitMQService] with its [connection] field: the shared state, the
    connection and the calls made on the broker so far. *)
Record Service := mkService {
  connection : option Connection;
  calls : list BrokerCall;
  shared : World
}.

(** What [connect] and its helpers throw. *)
Inductive LifecycleError :=
| NotInitialized                   (* Error('Channel not initialized') *)
| BrokerRejected (call : string).  (* the rejection of an awaited call *)

Inductive ConnectionStatus :=
| connected
| disconnected.

Module Lifecycle.

Definition exchangeName : string := "x-ray-exchange".
Definition queueName : string := "x-ray-queue".
Definition routingKey : string := "".
Definition defaultUrl : string := "amqp://localhost:5672".

Definition logged (e : LogEntry) (s : Service) : Service :=
  mkService (connection s) (calls s) (log e (shared s)).

Definition called (c : BrokerCall) (s : Service) : Service :=
  mkService (connection s) (calls s ++ [c]) (shared s).

(** [setupQueue()] *)
Definition setupQueue (b : Broker) (s : Service)
  : Outcome LifecycleError unit * Service :=
  match channel (shared s) with
  | None => (Thrown NotInitialized, s)
  | Some _ =>
      let failed call s' :=
        (Thrown (BrokerRejected call) : Outcome LifecycleError unit,
         logged (LogError "Failed to setup queue:") s') in
      let s1 := called (AssertExchange exchangeName "fanout" true) s in
      if negb (assertExchange_resolves b) then failed "assertExchange" s1
      else
        let s2 := called (AssertQueue queueName true) s1 in
        if negb (assertQueue_resolves b) then failed "assertQueue" s2
        else
          let s3 := called (BindQueue queueName exchangeName routingKey) s2 in
          if negb (bindQueue_resolves b) then failed "bindQueue" s3
          else (Returned tt, logged (LogInfo "Queue setup completed") s3)
  end.

(** [startConsumer()], up to the registration of the callback. *)
Definition startConsumer (b : Broker) (s : Service)
  : Outcome LifecycleError unit * Service :=
  match channel (shared s) with
  | None => (Thrown NotInitialized, s)
  | Some _ =>
      let s1 := called (Consume queueName) s in
      if negb (consume_resolves b)
      then (Thrown (BrokerRejected "consume"),
            logged (LogError "Failed to start consumer:") s1)
      else (Returned tt, logged (LogInfo "Consumer started") s1)
  end.

(** [connect()], which is all [onModuleInit] does. *)
Definition connect (b : Broker) (s : Service)
  : Outcome LifecycleError unit * Service :=
  let failed (e : LifecycleError) s' :=
    (Thrown e : Outcome LifecycleError unit,
     logged (LogError "Failed to connect to RabbitMQ:") s') in
  if negb (connect_resolves b) then failed (BrokerRejected "connect") s
  else
    let s1 := mkService (Some (mkConnection false)) (calls s) (shared s) in
    if negb (createChannel_resolves b)
    then failed (BrokerRejected "createChannel") s1
    else
      let s2 :=
        mkService (connection s1) (calls s1)
                  (set_channel (Some (mkChannel [] [] false)) (shared s1)) in
      match setupQueue b s2 with
      | (Thrown e, s3) => failed e s3
      | (Returned _, s3) =>
          match startConsumer b s3 with
          | (Thrown e, s4) => failed e s4
          | (Returned _, s4) =>
              (Returned tt,
               logged (LogInfo "Connected to RabbitMQ successfully") s4)
          end
      end.

(** [getConnectionStatus()], [config] being the configured [RABBITMQ_URL]. *)
Definition getConnectionStatus (config : option string) (s : Service)
  : ConnectionStatus * string :=
  let url := if JS.truthy_str config then default defaultUrl config
             else defaultUrl in
  match connection s with
  | None => (disconnected, url)
  | Some c => if closed c then (disconnected, url) else (connected, url)
  end.

(** [disconnect()], which is all [onModuleDestroy] does; the two arguments
    tell whether [channel.close()] and [connection.close()] resolve.  A
    rejection ends the [try] block and is logged, not thrown. *)
Definition disconnect (channel_close_resolves connection_close_resolves : bool)
  (s : Service) : Service :=
  let failed s' := logged (LogError "Error disconnecting from RabbitMQ:") s' in
  match channel (shared s) with
  | Some _ =>
      if negb channel_close_resolves then failed s
      else
        let s1 := mkService (connection s) (calls s)
                            (set_channel None (shared s)) in
        match connection s1 with
        | Some _ =>
            if negb connection_close_resolves then failed s1
            else logged (LogInfo "Disconnected from RabbitMQ")
                        (mkService None (calls s1) (shared s1))
        | None => logged (LogInfo "Disconnected from RabbitMQ") s1
        end
  | None =>
      match connection s with
      | Some _ =>
          if negb connection_close_resolves then failed s
          else logged (LogInfo "Disconnected from RabbitMQ")
                      (mkService None (calls s) (shared s))
      | None => logged (LogInfo "Disconnected from RabbitMQ") s
      end
  end.

End Lifecycle.

(** ** Further operations of [ProducerService] *)

(** What [generateRandomData] and [sendRandomData] end with besides the
    publisher's errors: reading [.data] of [undefined]. *)
Inductive RandomError :=
| TypeError
| PublishError (e : Error).

Module Simulations.

(** [getAvailableDevices()]: the keys of the catalog.  (The engine lists them
    in insertion order, the embedding in the order of the map.) *)
Definition getAvailableDevices (this : ProducerService) : list string :=
  (map_to_list (xrayData this)).*1.

(** [simulateDevice], together with the set of timers that are running:
    [setInterval] starts the timer whose handle the simulation holds. *)
Definition simulateDevice (deviceId : string) (interval : Z)
  (this : ProducerService) (running : gset nat) (w : World)
  : Result Simulation * ProducerService * gset nat * World :=
  match ProducerService.simulateDevice deviceId interval this w with
  | (Ok sim, this', w') =>
      (Ok sim, this', running ∪ {[sim_intervalId sim]}, w')
  | (Throw e, this', w') => (Throw e, this', running, w')
  end.

(** The cleanup function [simulateDevice] returns:
    [clearInterval(intervalId); this.simulationIntervals.delete(deviceId)]. *)
Definition cleanup (sim : Simulation) (this : ProducerService)
  (running : gset nat) (w : World) : ProducerService * gset nat * World :=
  (mkProducer (xrayData this)
              (delete (sim_deviceId sim) (simulationIntervals this))
              (nextTimer this),
   running ∖ {[sim_intervalId sim]},
   log (LogInfo (String.append "Stopped simulation for device: "
                               (sim_deviceId sim))) w).

(** [stopSimulation(deviceId)] *)
Definition stopSimulation (deviceId : string) (this : ProducerService)
  (running : gset nat) (w : World) : ProducerService * gset nat * World :=
  match simulationIntervals this !! deviceId with
  | Some intervalId =>
      (mkProducer (xrayData this)
                  (delete deviceId (simulationIntervals this))
                  (nextTimer this),
       running ∖ {[intervalId]},
       log (LogInfo (String.append "Stopped simulation for device: "
                                   deviceId)) w)
  | None => (this, running, w)
  end.

(** The loop of [stopAllSimulations] over the device ids it visits. *)
Fixpoint stop_each (deviceIds : list string) (this : ProducerService)
  (running : gset nat) (w : World) : ProducerService * gset nat * World :=
  match deviceIds with
  | [] => (this, running, w)
  | deviceId :: rest =>
      match stopSimulation deviceId this running w with
      | (this', running', w') => stop_each rest this' running' w'
      end
  end.

(** [stopAllSimulations()]: every entry of the registry is visited once. *)
Definition stopAllSimulations (this : ProducerService) (running : gset nat)
  (w : World) : ProducerService * gset nat * World :=
  stop_each (map_to_list (simulationIntervals this)).*1 this running w.

(** [generateRandomData()], [draw] being the value of
    [Math.floor(Math.random() * deviceIds.length)]. *)
Definition generateRandomData (draw : nat) (this : ProducerService) (w : World)
  : Outcome RandomError XRayData :=
  match getAvailableDevices this !! draw with
  | Some randomDeviceId =>
      match xrayData this !! randomDeviceId with
      | Some deviceData =>
          Returned (mkXRayData randomDeviceId (dev_data deviceData) (clock w))
      | None => Thrown TypeError
      end
  | None => Thrown TypeError
  end.

(** [sendRandomData(count)], [random i] being the draw of iteration [i]
    (counted from [first]). *)
Fixpoint sendRandomData (count : nat) (random : nat -> nat) (first : nat)
  (this : ProducerService) (w : World) : Outcome RandomError unit * World :=
  match count with
  | O => (Returned tt, w)
  | S count' =>
      match generateRandomData (random first) this w with
      | Thrown e => (Thrown e, w)
      | Returned randomData =>
          match RabbitMQService.publishXRayData randomData w with
          | (Ok _, w1) =>
              sendRandomData count' random (S first) this (sleep 100 w1)
          | (Throw e, w1) => (Thrown (PublishError e), w1)
          end
      end
  end.

End Simulations.

(** ** [ProducerController.sendBulkMessages] *)

(** [class SendBulkMessagesDto] *)
Record SendBulkMessagesDto := mkSendBulk {
  body_deviceIds : list string;
  body_count : option nat
}.

(** The controller's response. *)
Record SendBulkResponse := mkSendBulkResponse {
  res_message : string;
  res_deviceIds : list string;
  res_count : nat;
  res_totalMessages : nat
}.

Module ProducerController.

(** [body.count || 1] *)
Definition count_or_one (count : option nat) : nat :=
  match count with
  | Some (S n) => S n
  | _ => 1%nat
  end.

Definition sendBulkMessages (body : SendBulkMessagesDto)
  (this : ProducerService) (w : World) : Result SendBulkResponse * World :=
  let count := count_or_one (body_count body) in
  match ProducerService.sendBulkMessages (body_deviceIds body) count this w with
  | (Ok _, w') =>
      (Ok (mkSendBulkResponse "Messages sent successfully"
             (body_deviceIds body) count
             (length (body_deviceIds body) * count)), w')
  | (Throw e, w') => (Throw e, w')
  end.

End ProducerController.

(** ** Further notions used to state the properties *)

(** A sample that carries a speed. *)
Definition has_speed (s : sample) : bool :=
  match JS.index (position s) 2 with
  | Some _ => true
  | None => false
  end.

(** ** Further concrete states *)

(** The scenario Reading sent by a device whose id matches the schema's
    pattern, and a delivery carrying it. *)
Definition valid_reading : XRayData :=
  mkXRayData "66bb584d4ae73e488c30a072" (data scenario_reading) 1735683480000.

Definition valid_message : Message := mkMessage 7 (Json valid_reading).



(** A service that never connected, and a broker that accepts every call. *)
Definition fresh_service : Service := mkService None [] disconnected_world.

Definition willing_broker : Broker := mkBroker true true true true true true.

(** A broker that accepts the connection and refuses the channel. *)
Definition channelless_broker : Broker :=
  mkBroker true false true true true true.

(** A producer whose registry holds timer [0] for [d1]. *)
Definition simulating_producer : ProducerService :=
  mkProducer {[ "d1" := sample_device ]} {[ "d1" := 0%nat ]} 1.


(** * Properties *)

(** Two binary64 values are different when [==] tells them apart. *)
Ltac float_differs H c :=
  apply (f_equal (fun x => PrimFloat.eqb x c)) in H;
  vm_compute in H; discriminate H.

(** ** Metrics Calculator *)

Section MetricsFacts.

Import Metrics.

Lemma dataVolume_of_complete (samples : list sample) (acc : Z) :
  forallb complete_triple samples = true ->
  fold_left (fun total s => total + Z.of_nat (length (position s))) samples acc
  = acc + 3 * Z.of_nat (length samples).
Proof.
  revert acc.
  induction samples as [|s samples IH]; intros acc Hall; simpl in *.
  - lia.
  - apply andb_prop in Hall as [Hs Hrest].
    rewrite IH by exact Hrest.
    assert (length (position s) = 3%nat) as ->.
    { unfold complete_triple in Hs.
      destruct (position s) as [|[a|] [|[b|] [|[c|] [|d l]]]]; try discriminate.
      reflexivity. }
    lia.
Qed.

(** C2. A Reading whose sample list is non-empty and whose every sample
    carries a complete [latitude, longitude, speed] triple gets
    [dataVolume = 3 * dataLength], [dataLength] being the sample count. *)
Theorem dataVolume_three_times_dataLength (reading : XRayData) :
  data reading <> [] ->
  forallb complete_triple (data reading) = true ->
  dto_dataLength (calculateSignalMetrics reading)
    = Z.of_nat (length (data reading))
  /\ dto_dataVolume (calculateSignalMetrics reading)
    = 3 * dto_dataLength (calculateSignalMetrics reading).
Proof.
  intros _ Hall. split; [reflexivity|].
  cbn [calculateSignalMetrics dto_dataVolume dto_dataLength].
  unfold dataVolume_of.
  rewrite dataVolume_of_complete by exact Hall. lia.
Qed.

Lemma dataVolume_three_times_dataLength_witness :
  dto_dataLength (calculateSignalMetrics scenario_reading) = 2
  /\ dto_dataVolume (calculateSignalMetrics scenario_reading)
     = 3 * dto_dataLength (calculateSignalMetrics scenario_reading).
Proof.
  apply (dataVolume_three_times_dataLength scenario_reading).
  - discriminate.
  - reflexivity.
Defined.

(** C5. A Reading with no samples gets zeroed metrics: averageSpeed,
    maxSpeed and minSpeed are [0], coordinates are [[0, 0]], dataLength and
    dataVolume are [0]. *)
Theorem empty_reading_zero_metrics (id : string) (t : Z) :
  calculateSignalMetrics (mkXRayData id [] t)
  = mkCreateSignalDto id t [] 0 0 zero zero zero (zero, zero).
Proof. reflexivity. Qed.

(** C3, as amended.  For the scenario Reading the calculator produces
    dataLength 2, dataVolume 6, averageSpeed 1.367702 (the binary64 value
    of [(0 + 1.2038 + 1.531604) / 2], not rounded), maxSpeed 1.531604,
    minSpeed 1.2038 and coordinates [[51.3397705, 12.339217000000001]]. *)
Theorem scenario_metrics_exact :
  calculateSignalMetrics scenario_reading = scenario_metrics.
Proof. vm_compute. reflexivity. Qed.

(** C3, as stated: averageSpeed 1.3677 and coordinates
    [[51.3397705, 12.339217]] are not what the calculator produces. *)
Lemma scenario_metrics_as_stated_refuted :
  ~ (dto_dataLength (calculateSignalMetrics scenario_reading) = 2
     /\ dto_dataVolume (calculateSignalMetrics scenario_reading) = 6
     /\ dto_averageSpeed (calculateSignalMetrics scenario_reading)
        = 1.3677%float
     /\ dto_maxSpeed (calculateSignalMetrics scenario_reading)
        = 1.531604%float
     /\ dto_minSpeed (calculateSignalMetrics scenario_reading)
        = 1.2038%float
     /\ dto_coordinates (calculateSignalMetrics scenario_reading)
        = (51.3397705%float, 12.339217%float)).
Proof.
  intros (_ & _ & Havg & _). float_differs Havg 1.3677%float.
Qed.

(** The longitude of the scenario differs from [12.339217] as well: the
    binary64 quotient is the next representable number above it. *)
Lemma scenario_longitude_not_12_339217 :
  snd (dto_coordinates (calculateSignalMetrics scenario_reading))
  <> 12.339217%float.
Proof.
  intros Hlng. float_differs Hlng 12.339217%float.
Qed.

(** The service's unit tests, replayed on the embedding: three complete
    samples, and a sample whose speed is [undefined]. *)
Example service_test_metrics :
  let m := calculateSignalMetrics service_test_reading in
  dto_dataLength m = 3 /\ dto_dataVolume m = 9
  /\ dto_averageSpeed m = 1.6248200000000004%float
  /\ dto_maxSpeed m = 2.13906%float /\ dto_minSpeed m = 1.2038%float
  /\ dto_coordinates m = (51.339774333333331%float, 12.339210000000001%float).
Proof. vm_compute. repeat split. Qed.

Example missing_speed_metrics :
  let m := calculateSignalMetrics missing_speed_reading in
  dto_averageSpeed m = 1.5316%float
  /\ dto_maxSpeed m = 1.5316%float /\ dto_minSpeed m = 1.5316%float.
Proof. vm_compute. repeat split. Qed.

(** [Math.max], [Math.min] and [Math.round] on their corner cases. *)
Example Math_corner_cases :
  JS.Math_max [zero; neg_zero] = zero
  /\ JS.Math_min [zero; neg_zero] = neg_zero
  /\ JS.Math_max [1; nan; 3]%float = nan
  /\ JS.Math_max [] = neg_infinity
  /\ JS.Math_min [] = infinity
  /\ JS.Math_round 2.5%float = 3%float
  /\ JS.Math_round (-2.5)%float = (-2)%float
  /\ JS.Math_round (-0.2)%float = neg_zero
  /\ JS.Math_round 0.49999999999999994%float = zero.
Proof. vm_compute. repeat split. Qed.

End MetricsFacts.

(** ** Publisher *)

(** C6. When no channel exists, [publishXRayData] fails with the
    channel-unavailable error and changes nothing: nothing is published, no
    channel is created, nothing is retried. *)
Theorem publish_without_channel (reading : XRayData) (w : World) :
  channel w = None ->
  RabbitMQService.publishXRayData reading w = (Throw ChannelNotInitialized, w)
  /\ published_of (snd (RabbitMQService.publishXRayData reading w)) = []
  /\ channel (snd (RabbitMQService.publishXRayData reading w)) = None.
Proof.
  intros Hnone. unfold RabbitMQService.publishXRayData, published_of.
  rewrite Hnone. cbn. rewrite Hnone. auto.
Qed.

Lemma publish_without_channel_witness :
  RabbitMQService.publishXRayData scenario_reading disconnected_world
  = (Throw ChannelNotInitialized, disconnected_world).
Proof.
  apply (publish_without_channel scenario_reading disconnected_world).
  reflexivity.
Defined.

(** ** Consumer *)

Section ConsumerFacts.

Import RabbitMQService SignalsService.

(** The ingestion handler fails exactly when the store rejects the write. *)
Lemma processXRayData_unreachable (d : XRayData) (w : World) :
  reachable (store w) = false ->
  fst (processXRayData d w) = Throw StoreFailure
  /\ store (snd (processXRayData d w)) = store w
  /\ channel (snd (processXRayData d w)) = channel w.
Proof.
  intros Hdown.
  unfold processXRayData, createSignal, SignalModel.create.
  rewrite Hdown. cbn. auto.
Qed.

Lemma processXRayData_channel (d : XRayData) (w : World) :
  channel (snd (processXRayData d w)) = channel w.
Proof.
  unfold processXRayData, createSignal, SignalModel.create.
  destruct (reachable (store w)); reflexivity.
Qed.

(** The registered listener never throws. *)
Lemma onXRayData_returns (d : XRayData) (w : World) :
  fst (onXRayData d w) = Ok tt
  /\ channel (snd (onXRayData d w)) = channel w.
Proof.
  unfold onXRayData.
  pose proof (processXRayData_channel d w) as Hch.
  destruct (processXRayData d w) as [[doc|e] w']; cbn in *; auto.
Qed.

(** A decoded message is acknowledged whatever becomes of the handler. *)
Lemma onMessage_decoded_acks (m : Message) (d : XRayData) (w : World)
  (ch : Channel) :
  content m = Json d ->
  channel w = Some ch ->
  settlements_of (onMessage [onXRayData] (Some m) w) = settlements ch ++ [Ack m].
Proof.
  intros Hjson Hch.
  unfold onMessage. rewrite Hjson. cbn [JSON_parse emit].
  set (w1 := log _ w).
  destruct (onXRayData_returns d w1) as [Hok Hsame].
  destruct (onXRayData d w1) as [[[]|e] w2]; cbn in Hok, Hsame; [|discriminate].
  unfold ack, settlements_of. rewrite Hsame. subst w1. cbn. rewrite Hch.
  reflexivity.
Qed.

(** C1, on the code: a message that decodes into a Reading and whose handler
    fails (the store rejects the write, nothing is persisted) is
    acknowledged, not negative-acknowledged: the listener does not await the
    handler's promise and catches its rejection, so [emit] never throws on
    its account. *)
Theorem consumer_acks_although_handler_fails (m : Message) (d : XRayData)
  (w : World) (ch : Channel) :
  content m = Json d ->
  channel w = Some ch ->
  reachable (store w) = false ->
  (forall w0, store w0 = store w ->
     fst (processXRayData d w0) = Throw StoreFailure)
  /\ settlements_of (onMessage [onXRayData] (Some m) w)
     = settlements ch ++ [Ack m]
  /\ docs (store (onMessage [onXRayData] (Some m) w)) = docs (store w).
Proof.
  intros Hjson Hch Hdown. split; [|split].
  - intros w0 Hstore. apply processXRayData_unreachable. congruence.
  - apply (onMessage_decoded_acks m d w ch); assumption.
  - unfold onMessage, onXRayData, processXRayData, createSignal,
      SignalModel.create.
    rewrite Hjson. cbn. rewrite Hdown. cbn.
    unfold ack. cbn. rewrite Hch. reflexivity.
Qed.


Lemma onMessage_throwing_listener_nacks (m : Message) (d : XRayData)
  (e : Error) (w : World) (ch : Channel) :
  content m = Json d ->
  channel w = Some ch ->
  settlements_of (onMessage [fun _ w0 => (Throw e, w0)] (Some m) w)
  = settlements ch ++ [Nack m false true].
Proof.
  intros Hjson Hch. unfold onMessage. rewrite Hjson. cbn.
  unfold nack, settlements_of. cbn. rewrite Hch. reflexivity.
Qed.

Lemma onMessage_null (listeners : list Listener) (w : World) :
  onMessage listeners None w = w.
Proof. reflexivity. Qed.

End ConsumerFacts.

Lemma consumer_acks_although_handler_fails_witness :
  settlements_of
    (RabbitMQService.onMessage [SignalsService.onXRayData]
       (Some scenario_message) store_down_world)
  = [Ack scenario_message].
Proof.
  apply (consumer_acks_although_handler_fails
           scenario_message scenario_reading store_down_world open_channel);
    reflexivity.
Defined.

(** ** Persistence gateway: queries *)

Section QueryFacts.

Import SignalModel SignalsService.

Lemma findAll_query_timestamp (filter : option SignalFilterDto) :
  q_timestamp (findAll_query filter) = range_of filter.
Proof.
  unfold findAll_query.
  destruct filter as [f|]; [|reflexivity].
  destruct (range_of (Some f)) as [[a b]|],
    (JS.truthy_str (f_deviceId f)), (JS.truthy_opt (f_limit f)),
    (JS.truthy_opt (f_skip f)); reflexivity.
Qed.

(** Whatever [exec] returns was selected by the query's conditions. *)
Lemma exec_selected (q : Query) (s : Store) (found : list Signal) (d : Signal) :
  exec q s = Ok found -> In d found -> selects q d = true /\ In d (docs s).
Proof.
  unfold exec. destruct (reachable s); [|discriminate].
  intros [= <-] Hin.
  apply list_elem_of_In in Hin.
  assert (d ∈ List.filter (selects q) (docs s)) as Hsel.
  { destruct (q_limit q) as [n|], (q_skip q) as [k|];
      repeat first [ apply subseteq_take in Hin | apply subseteq_drop in Hin ];
      exact Hin. }
  apply list_elem_of_In, filter_In in Hsel. tauto.
Qed.

Lemma exec_reachable (q : Query) (s : Store) :
  reachable s = true -> exists found, exec q s = Ok found.
Proof. intros Hup. unfold exec. rewrite Hup. eauto. Qed.

(** The range filter, when the guard lets it through: both bounds supplied
    and neither of them [0]. *)
Lemma findAll_time_range (f : SignalFilterDto) (w : World) (a b : Z) :
  f_startTime f = Some a ->
  f_endTime f = Some b ->
  a <> 0 -> b <> 0 ->
  reachable (store w) = true ->
  exists found,
    findAll (Some f) w = (Ok found, w)
    /\ forall d, In d found -> a <= sig_timestamp d <= b.
Proof.
  intros Ha Hb Ha0 Hb0 Hup.
  destruct (exec_reachable (findAll_query (Some f)) (store w) Hup)
    as [found Hexec].
  exists found. unfold findAll. rewrite Hexec. split; [reflexivity|].
  intros d Hin.
  destruct (exec_selected _ _ _ _ Hexec Hin) as [Hsel _].
  unfold selects in Hsel. rewrite findAll_query_timestamp in Hsel.
  unfold range_of in Hsel. rewrite Ha, Hb in Hsel.
  unfold JS.truthy in Hsel.
  apply Z.eqb_neq in Ha0, Hb0. rewrite Ha0, Hb0 in Hsel. cbn in Hsel.
  apply andb_prop in Hsel as [_ Hrange].
  apply andb_prop in Hrange as [Hlo Hhi]. lia.
Qed.

(** With only one of the two bounds supplied the query carries no condition
    on the timestamp. *)
Lemma findAll_one_bound (f : SignalFilterDto) (w : World) :
  f_startTime f = None \/ f_endTime f = None ->
  findAll (Some f) w
  = findAll (Some (mkFilter (f_deviceId f) None None (f_limit f) (f_skip f))) w.
Proof.
  intros Hone. unfold findAll, findAll_query, range_of. cbn.
  destruct Hone as [-> | ->]; [|destruct (f_startTime f)]; reflexivity.
Qed.

(** C4, on the code: with both bounds supplied, [startTime] being [0], the
    range is not applied and records outside [[startTime, endTime]] are
    returned. *)
Theorem findAll_from_epoch_not_filtered :
  f_startTime from_epoch_filter = Some 0
  /\ f_endTime from_epoch_filter = Some 100
  /\ findAll (Some from_epoch_filter) three_records_world
     = (Ok [record_at "66bb584d4ae73e488c30a072" 50;
            record_at "66bb584d4ae73e488c30a072" 150;
            record_at "66bb584d4ae73e488c30a072" 200],
        three_records_world)
  /\ findAll (Some window_filter) three_records_world
     = (Ok [record_at "66bb584d4ae73e488c30a072" 150], three_records_world).
Proof. repeat split. Qed.

End QueryFacts.

(** ** Persistence gateway: statistics *)

Section StatisticsFacts.

Import SignalModel SignalsService.

(** The scope of the aggregation: every record, or the records of one
    device.  An empty [deviceId] is falsy and scopes nothing. *)
Lemma matchStage_of_device (device : string) :
  device <> EmptyString -> matchStage_of (Some device) = Some device.
Proof. destruct device; [congruence | reflexivity]. Qed.

Lemma matchStage_of_absent : matchStage_of None = None.
Proof. reflexivity. Qed.

Lemma matchStage_of_empty : matchStage_of (Some EmptyString) = None.
Proof. reflexivity. Qed.



(** Rounding to two decimals, evaluated: halves go up, and the averages of
    the service's own test pass unchanged. *)
Example round2_examples :
  round2 (Some 1.62482%float) = 1.62%float
  /\ round2 (Some 1.625%float) = 1.63%float
  /\ round2 (Some 5.5%float) = 5.5%float
  /\ round2 (Some 16.5%float) = 16.5%float
  /\ round2 (Some 1.8%float) = 1.8%float
  /\ round2 None = zero.
Proof. vm_compute. repeat split. Qed.

(** The statistics over the three stored records. *)
Example getStatistics_three_records :
  fst (getStatistics None three_records_world)
  = Ok (mkStatistics 3 1 1%float 3%float 1.2%float
          (Some 1.2038%float) (Some 1.2038%float)).
Proof. vm_compute. reflexivity. Qed.

End StatisticsFacts.

(** ** Pre-save middleware *)

Section SchemaFacts.

Import SignalSchema.





End SchemaFacts.

(** ** Device Simulator *)

Section ProducerFacts.

Import RabbitMQService ProducerService.

Lemma publisher_ready_channel (w : World) :
  publisher_ready w = true ->
  exists ch, channel w = Some ch /\ publish_throws ch = false.
Proof.
  unfold publisher_ready. destruct (channel w) as [ch|]; [|discriminate].
  intros Hready. exists ch. split; [reflexivity|].
  destruct (publish_throws ch); [discriminate | reflexivity].
Qed.

(** A publish on a ready publisher appends the Reading and nothing else. *)
Lemma publishXRayData_ready (d : XRayData) (w : World) :
  publisher_ready w = true ->
  exists w',
    publishXRayData d w = (Ok tt, w')
    /\ published_of w' = published_of w ++ [d]
    /\ publisher_ready w' = true
    /\ warnings_of (logs w') = warnings_of (logs w)
    /\ clock w' = clock w.
Proof.
  intros Hready.
  destruct (publisher_ready_channel w Hready) as (ch & Hch & Hok).
  unfold publishXRayData. rewrite Hch, Hok. eexists. split; [reflexivity|].
  unfold published_of, publisher_ready, warnings_of. cbn.
  rewrite Hch. repeat split.
  rewrite omap_app. cbn. apply app_nil_r.
Qed.

(** A publish on a publisher that is not ready publishes nothing. *)
Lemma publishXRayData_not_ready (d : XRayData) (w : World) :
  publisher_ready w = false ->
  exists e w',
    publishXRayData d w = (Throw e, w')
    /\ published_of w' = published_of w
    /\ channel w' = channel w.
Proof.
  unfold publisher_ready, publishXRayData, published_of.
  destruct (channel w) as [ch|] eqn:Hch.
  - destruct (publish_throws ch); [|discriminate].
    intros _. do 2 eexists. split; [reflexivity|]. cbn. rewrite Hch. auto.
  - intros _. do 2 eexists. split; [reflexivity|]. rewrite Hch. auto.
Qed.

(** One message for a known device, on a ready publisher. *)
Lemma sendSingleMessage_ready (id : string) (this : ProducerService)
  (dev : DeviceData) (w : World) :
  xrayData this !! id = Some dev ->
  publisher_ready w = true ->
  exists w',
    sendSingleMessage id this w = (Ok tt, w')
    /\ published_of w' = published_of w ++ [mkXRayData id (dev_data dev) (clock w)]
    /\ publisher_ready w' = true
    /\ warnings_of (logs w') = warnings_of (logs w).
Proof.
  intros Hdev Hready. unfold sendSingleMessage. rewrite Hdev.
  destruct (publishXRayData_ready
              (mkXRayData id (dev_data dev) (clock w)) w Hready)
    as (w1 & Hpub & Hlist & Hready1 & Hwarn & _).
  rewrite Hpub. eexists. split; [reflexivity|].
  unfold published_of, publisher_ready, warnings_of in *. cbn.
  rewrite omap_app. cbn. rewrite app_nil_r. auto.
Qed.








(** *** Continuous simulation *)

Lemma cursor_in_range (sequence : list sample) (i : nat) :
  sequence <> [] ->
  exists s, sequence !! (i mod length sequence)%nat = Some s.
Proof.
  intros Hne. apply lookup_lt_is_Some_2, Nat.mod_upper_bound.
  destruct sequence; [congruence | discriminate].
Qed.

(** A tick whose publish succeeds: one Reading carrying the one sample under
    the cursor, and the cursor moves on by one. *)
Lemma tick_ready (sim : Simulation) (w : World) (s : sample) :
  dev_data (sim_deviceData sim)
    !! (dataIndex sim mod length (dev_data (sim_deviceData sim)))%nat = Some s ->
  publisher_ready w = true ->
  exists w',
    tick sim w
    = Some (mkSimulation (sim_deviceId sim) (sim_deviceData sim)
                         (sim_intervalId sim) (S (dataIndex sim)), w')
    /\ published_of w'
       = published_of w ++ [mkXRayData (sim_deviceId sim) [s] (clock w)]
    /\ publisher_ready w' = true.
Proof.
  intros Hs Hready. unfold tick. rewrite Hs.
  destruct (publishXRayData_ready
              (mkXRayData (sim_deviceId sim) [s] (clock w)) w Hready)
    as (w1 & Hpub & Hlist & Hready1 & _).
  rewrite Hpub. eexists. split; [reflexivity|].
  split; [exact Hlist | exact Hready1].
Qed.

(** A tick whose publish fails: nothing is published and the cursor stays. *)
Lemma tick_not_ready (sim : Simulation) (w : World) (s : sample) :
  dev_data (sim_deviceData sim)
    !! (dataIndex sim mod length (dev_data (sim_deviceData sim)))%nat = Some s ->
  publisher_ready w = false ->
  exists w', tick sim w = Some (sim, w') /\ published_of w' = published_of w.
Proof.
  intros Hs Hdown. unfold tick. rewrite Hs.
  destruct (publishXRayData_not_ready
              (mkXRayData (sim_deviceId sim) [s] (clock w)) w Hdown)
    as (e & w1 & Hpub & Hlist & _).
  rewrite Hpub. eexists. split; [reflexivity|]. exact Hlist.
Qed.

(** [n] ticks on a ready publisher walk the sequence round-robin from the
    cursor. *)
Lemma run_ticks_ready (n : nat) (interval : Z) (sim : Simulation) (w : World) :
  dev_data (sim_deviceData sim) <> [] ->
  publisher_ready w = true ->
  exists sim' w',
    run_ticks n interval sim w = Some (sim', w')
    /\ dataIndex sim' = (dataIndex sim + n)%nat
    /\ map payload (published_of w')
       = map payload (published_of w)
         ++ round_robin (sim_deviceId sim) (dev_data (sim_deviceData sim))
                        (dataIndex sim) n
    /\ publisher_ready w' = true.
Proof.
  intros Hne. revert sim w Hne.
  induction n as [|n IH]; intros sim w Hne Hready; cbn [run_ticks].
  - exists sim, w. unfold round_robin. cbn. rewrite app_nil_r.
    rewrite Nat.add_0_r. auto.
  - destruct (cursor_in_range _ (dataIndex sim) Hne) as [s Hs].
    destruct (tick_ready sim (sleep interval w) s Hs Hready)
      as (w1 & Htick & Hlist & Hready1).
    rewrite Htick.
    destruct (IH (mkSimulation (sim_deviceId sim) (sim_deviceData sim)
                               (sim_intervalId sim) (S (dataIndex sim)))
                 w1 Hne Hready1)
      as (sim' & w' & Hrun & Hidx & Hlist' & Hready').
    exists sim', w'. split; [exact Hrun|]. cbn in Hidx, Hlist'.
    split; [lia|]. split; [|exact Hready'].
    rewrite Hlist', Hlist, map_app.
    change (published_of (sleep interval w)) with (published_of w).
    unfold round_robin. cbn [seq map payload deviceId data].
    rewrite Hs. cbn [option_list]. rewrite <- app_assoc. reflexivity.
Qed.

(** C8, as amended.  For a device of the catalog whose stored sequence is not
    empty, the simulation starts with the cursor at [0]; every tick whose
    publish succeeds publishes exactly one sample of the sequence, the one at
    the cursor modulo the length, and advances the cursor by one, so that
    ticks on a working publisher round-robin through the recorded samples in
    order; a tick whose publish fails publishes nothing and leaves the cursor
    where it was. *)
Theorem simulateDevice_round_robin (id : string) (interval : Z)
  (this : ProducerService) (w : World) (dev : DeviceData) :
  xrayData this !! id = Some dev ->
  dev_data dev <> [] ->
  exists sim this' w0,
    simulateDevice id interval this w = (Ok sim, this', w0)
    /\ dataIndex sim = 0%nat
    /\ published_of w0 = published_of w
    /\ simulationIntervals this' !! id = Some (sim_intervalId sim)
    /\ (forall sim1 w1,
          sim_deviceId sim1 = id -> sim_deviceData sim1 = dev ->
          exists s,
            dev_data dev !! (dataIndex sim1 mod length (dev_data dev))%nat
            = Some s
            /\ (publisher_ready w1 = true ->
                exists sim2 w2,
                  tick sim1 w1 = Some (sim2, w2)
                  /\ dataIndex sim2 = S (dataIndex sim1)
                  /\ published_of w2
                     = published_of w1 ++ [mkXRayData id [s] (clock w1)])
            /\ (publisher_ready w1 = false ->
                exists w2,
                  tick sim1 w1 = Some (sim1, w2)
                  /\ published_of w2 = published_of w1))
    /\ (publisher_ready w = true ->
        forall n, exists sim' w',
          run_ticks n interval sim w0 = Some (sim', w')
          /\ dataIndex sim' = n
          /\ map payload (published_of w')
             = map payload (published_of w) ++ round_robin id (dev_data dev) 0 n).
Proof.
  intros Hdev Hne. unfold simulateDevice. rewrite Hdev.
  do 3 eexists. split; [reflexivity|].
  split; [reflexivity|]. split; [reflexivity|].
  split; [apply lookup_insert_eq|]. split.
  - intros sim1 w1 Hid Hdata.
    destruct (cursor_in_range (dev_data dev) (dataIndex sim1) Hne) as [s Hs].
    exists s. split; [exact Hs|]. subst id dev. split.
    + intros Hready.
      destruct (tick_ready sim1 w1 s Hs Hready) as (w2 & Htick & Hlist & _).
      do 2 eexists. split; [exact Htick|]. split; [reflexivity | exact Hlist].
    + intros Hdown. exact (tick_not_ready sim1 w1 s Hs Hdown).
  - intros Hready n.
    set (sim := mkSimulation id dev (nextTimer this) 0).
    set (w0 := log _ w).
    destruct (run_ticks_ready n interval sim w0 Hne Hready)
      as (sim' & w' & Hrun & Hidx & Hlist & _).
    exists sim', w'. split; [exact Hrun|]. split; [exact Hidx|]. exact Hlist.
Qed.

Lemma simulateDevice_round_robin_witness :
  exists sim this' w0,
    simulateDevice "d1" 5000 sample_producer connected_world = (Ok sim, this', w0)
    /\ exists sim' w',
         run_ticks 4 5000 sim w0 = Some (sim', w')
         /\ dataIndex sim' = 4%nat
         /\ map payload (published_of w')
            = round_robin "d1" (dev_data sample_device) 0 4.
Proof.
  destruct (simulateDevice_round_robin
              "d1" 5000 sample_producer connected_world sample_device)
    as (sim & this' & w0 & Hstart & _ & _ & _ & _ & Hrun);
    [reflexivity | discriminate |].
  exists sim, this', w0. split; [exact Hstart|].
  exact (Hrun eq_refl 4%nat).
Defined.

(** C8, as stated: "exactly one sample per tick, the cursor advancing by one
    per tick" fails for a tick fired while no channel exists. *)
Lemma tick_as_stated_refuted :
  ~ (forall (this this' : ProducerService) (w w0 w' : World) (id : string)
            (interval : Z) (dev : DeviceData) (sim sim' : Simulation),
       xrayData this !! id = Some dev ->
       simulateDevice id interval this w = (Ok sim, this', w0) ->
       tick sim w0 = Some (sim', w') ->
       length (published_of w') = S (length (published_of w0))
       /\ dataIndex sim' = S (dataIndex sim)).
Proof.
  intros Hclaim.
  destruct (Hclaim sample_producer _ disconnected_world _ _ "d1" 5000
                   sample_device _ _ eq_refl eq_refl eq_refl)
    as [Hlength _].
  discriminate Hlength.
Qed.

(** The sample device's first four ticks: its three samples in order, then
    the first one again. *)
Example round_robin_sample_device :
  round_robin "d1" (dev_data sample_device) 0 4
  = [ ("d1", [mkSample 762 [Some 51.339764; Some 12.339223833333334;
                             Some 1.2038000000000002]%float]);
      ("d1", [mkSample 1766 [Some 51.33977733333333; Some 12.339211833333334;
                              Some 1.531604]%float]);
      ("d1", [mkSample 2763 [Some 51.339782; Some 12.339196166666667;
                              Some 2.13906]%float]);
      ("d1", [mkSample 762 [Some 51.339764; Some 12.339223833333334;
                             Some 1.2038000000000002]%float]) ].
Proof. reflexivity. Qed.

End ProducerFacts.

(** * Further properties *)

(** ** Consumer and ingestion *)

Section IngestionFacts.

Import RabbitMQService SignalsService SignalValidation.

(** The middleware's first step on a document whose dataLength is truthy. *)
Lemma preSave_volume (this : Signal) (n : Z) :
  sig_dataLength this = Some n -> n <> 0 ->
  sig_dataVolume (SignalSchema.preSave this) = Some (3 * n).
Proof.
  intros Hlen Hn0. unfold SignalSchema.preSave. cbn. rewrite Hlen.
  unfold JS.truthy. apply Z.eqb_neq in Hn0. rewrite Hn0. cbn.
  case_bool_decide as Hvol; cbn; [rewrite Hvol|]; f_equal; lia.
Qed.



(** X2. Ingestion round trip.  When the store answers and the record
    computed from a decoded Reading passes the schema's validators, consuming
    the message appends exactly one record, which carries the Reading's
    deviceId, its time as timestamp, its samples unchanged, the sample count
    as dataLength, three times that as dataVolume and the calculator's speed
    statistics and coordinates; the message is acknowledged. *)
Theorem ingestion_round_trip (m : Message) (d : XRayData) (w : World)
  (ch : Channel) :
  content m = Json d ->
  channel w = Some ch ->
  reachable (store w) = true ->
  validates (SignalModel.document_of (Metrics.calculateSignalMetrics d)
                                     (clock w)) = true ->
  let w' := onMessage [onXRayData] (Some m) w in
  let metrics := Metrics.calculateSignalMetrics d in
  exists doc,
    docs (store w') = docs (store w) ++ [doc]
    /\ reachable (store w') = true
    /\ sig_deviceId doc = deviceId d
    /\ sig_timestamp doc = time d
    /\ sig_data doc = data d
    /\ sig_dataLength doc = Some (Z.of_nat (length (data d)))
    /\ sig_dataVolume doc = Some (3 * Z.of_nat (length (data d)))
    /\ sig_averageSpeed doc = Some (dto_averageSpeed metrics)
    /\ sig_maxSpeed doc = Some (dto_maxSpeed metrics)
    /\ sig_minSpeed doc = Some (dto_minSpeed metrics)
    /\ sig_coordinates doc = Some (dto_coordinates metrics)
    /\ settlements_of w' = settlements ch ++ [Ack m].
Proof.
  intros Hjson Hch Hup Hvalid w' metrics.
  exists (SignalSchema.preSave
            (SignalModel.document_of metrics (clock w))).
  assert (1 <= Z.of_nat (length (data d))) as Hlen.
  { unfold validates in Hvalid.
    repeat (apply andb_prop in Hvalid as [Hvalid ?]).
    cbn in *. lia. }
  pose proof (preSave_volume
                (SignalModel.document_of metrics (clock w))
                (Z.of_nat (length (data d))) eq_refl ltac:(lia)) as Hdv.
  split.
  { subst w'. unfold onMessage, onXRayData, processXRayData, createSignal,
      SignalModel.create.
    rewrite Hjson. cbn. rewrite Hup. cbn.
    unfold ack. cbn. rewrite Hch. reflexivity. }
  split.
  { subst w'. unfold onMessage, onXRayData, processXRayData, createSignal,
      SignalModel.create.
    rewrite Hjson. cbn. rewrite Hup. cbn.
    unfold ack. cbn. rewrite Hch. reflexivity. }
  repeat split; try reflexivity; try assumption.
  subst w'. exact (onMessage_decoded_acks m d w ch Hjson Hch).
Qed.

Lemma ingestion_round_trip_witness :
  exists doc,
    docs (store (onMessage [onXRayData] (Some valid_message) connected_world))
    = [doc]
    /\ sig_data doc = data valid_reading
    /\ sig_dataVolume doc = Some 6.
Proof.
  destruct (ingestion_round_trip valid_message valid_reading connected_world
              open_channel eq_refl eq_refl eq_refl eq_refl)
    as (doc & Hdocs & _ & _ & _ & Hdata & _ & Hvolume & _).
  exists doc. auto.
Defined.

End IngestionFacts.

(** ** Metrics Calculator and schema *)

Section MetricsSchemaFacts.

Import Metrics SignalValidation.



Lemma omap_filter_is_some {A B : Type} (f : A -> option B) (l : list A) :
  omap f (List.filter (fun x => match f x with Some _ => true | None => false end) l)
  = omap f l.
Proof.
  induction l as [|x l IH]; [reflexivity|].
  cbn. destruct (f x) as [y|] eqn:Hfx; cbn; rewrite ?Hfx, IH; reflexivity.
Qed.

(** X4. Samples without a speed do not influence averageSpeed, maxSpeed and
    minSpeed, and samples lacking a latitude or a longitude do not influence
    the coordinates: the calculator gives the same values on the Reading
    with those samples removed. *)
Theorem metrics_ignore_incomplete_samples (id : string) (samples : list sample)
  (t : Z) :
  let m := calculateSignalMetrics (mkXRayData id samples t) in
  let with_speed :=
    calculateSignalMetrics (mkXRayData id (List.filter has_speed samples) t) in
  let with_position :=
    calculateSignalMetrics (mkXRayData id (List.filter has_lat_lng samples) t) in
  dto_averageSpeed m = dto_averageSpeed with_speed
  /\ dto_maxSpeed m = dto_maxSpeed with_speed
  /\ dto_minSpeed m = dto_minSpeed with_speed
  /\ dto_coordinates m = dto_coordinates with_position.
Proof.
  cbn. unfold speeds_of, validCoordinates_of, has_speed.
  rewrite (omap_filter_is_some (fun s => JS.index (position s) 2) samples).
  repeat split.
  assert (List.filter has_lat_lng samples
          = List.filter
              (fun s => match
                          match JS.index (position s) 0,
                                JS.index (position s) 1 with
                          | Some lat, Some lng => Some (lat, lng)
                          | _, _ => None
                          end
                        with Some _ => true | None => false end) samples) as ->.
  { apply filter_ext. intros s. unfold has_lat_lng.
    destruct (JS.index (position s) 0), (JS.index (position s) 1); reflexivity. }
  rewrite (omap_filter_is_some
             (fun s => match JS.index (position s) 0,
                             JS.index (position s) 1 with
                       | Some lat, Some lng => Some (lat, lng)
                       | _, _ => None
                       end) samples).
  reflexivity.
Qed.

End MetricsSchemaFacts.

(** ** Persistence gateway: filters, pagination, sibling queries *)

Section FilterFacts.

Import SignalModel SignalsService SignalsQueries.

(** X5. Filters compose with AND: with a non-empty deviceId, both time
    bounds supplied and non-zero, and no pagination, [findAll] returns, in
    insertion order, exactly the stored records of that device whose
    timestamp lies in the inclusive range. *)
Theorem findAll_device_and_range (f : SignalFilterDto) (w : World)
  (id : string) (a b : Z) :
  f_deviceId f = Some id -> id <> EmptyString ->
  f_startTime f = Some a -> f_endTime f = Some b -> a <> 0 -> b <> 0 ->
  f_limit f = None -> f_skip f = None ->
  reachable (store w) = true ->
  findAll (Some f) w
  = (Ok (List.filter
           (fun d => bool_decide (sig_deviceId d = id)
                     && ((a <=? sig_timestamp d) && (sig_timestamp d <=? b)))
           (docs (store w))), w).
Proof.
  intros Hid Hne Ha Hb Ha0 Hb0 Hlimit Hskip Hup.
  unfold findAll, findAll_query, range_of, exec.
  rewrite Hid, Ha, Hb, Hlimit, Hskip, Hup.
  unfold JS.truthy. apply Z.eqb_neq in Ha0, Hb0. rewrite Ha0, Hb0.
  destruct id as [|c id]; [congruence|]. reflexivity.
Qed.

Lemma findAll_device_and_range_witness :
  findAll (Some (mkFilter (Some "66bb584d4ae73e488c30a072") (Some 100)
                          (Some 180) None None))
          three_records_world
  = (Ok [record_at "66bb584d4ae73e488c30a072" 150], three_records_world).
Proof.
  rewrite (findAll_device_and_range _ three_records_world
             "66bb584d4ae73e488c30a072" 100 180);
    [reflexivity | reflexivity | discriminate | reflexivity | reflexivity
     | lia | lia | reflexivity | reflexivity | reflexivity].
Defined.

(** The query of a filter with a truthy limit and a truthy skip is the
    query of the same filter without pagination, limited and skipped. *)
Lemma findAll_query_paginated (f : SignalFilterDto) (n k : Z) :
  f_limit f = Some n -> n <> 0 ->
  f_skip f = Some k -> k <> 0 ->
  findAll_query (Some f)
  = skip k (limit n (findAll_query
                       (Some (mkFilter (f_deviceId f) (f_startTime f)
                                       (f_endTime f) None None)))).
Proof.
  intros Hlimit Hn Hskip Hk.
  unfold findAll_query, range_of. cbn. rewrite Hlimit, Hskip. cbn.
  unfold JS.truthy. apply Z.eqb_neq in Hn, Hk. rewrite Hn, Hk. cbn.
  destruct (JS.truthy_str (f_deviceId f)),
    (f_startTime f) as [a|], (f_endTime f) as [b|];
    try reflexivity;
    destruct (negb (a =? 0) && negb (b =? 0)); reflexivity.
Qed.

Lemma findAll_query_unpaginated (f : SignalFilterDto) :
  f_limit f = None -> f_skip f = None ->
  q_limit (findAll_query (Some f)) = None
  /\ q_skip (findAll_query (Some f)) = None.
Proof.
  intros Hlimit Hskip. unfold findAll_query. rewrite Hlimit, Hskip.
  destruct (range_of (Some f)) as [[a b]|],
    (JS.truthy_str (f_deviceId f)); split; reflexivity.
Qed.

(** X6. Pagination.  With a positive [limit] and a positive [skip],
    [findAll] returns the page obtained from the unpaginated result of the
    same filter by dropping [skip] records and keeping at most [limit]: the
    skip is applied before the limit although [limit()] is called first,
    and the page never holds more than [limit] records. *)
Theorem findAll_page (f : SignalFilterDto) (w : World) (n k : Z) :
  f_limit f = Some n -> 0 < n ->
  f_skip f = Some k -> 0 < k ->
  reachable (store w) = true ->
  exists everything page,
    findAll (Some (mkFilter (f_deviceId f) (f_startTime f) (f_endTime f)
                            None None)) w = (Ok everything, w)
    /\ findAll (Some f) w = (Ok page, w)
    /\ page = take (Z.to_nat n) (drop (Z.to_nat k) everything)
    /\ (Z.of_nat (length page) <= n).
Proof.
  intros Hlimit Hn Hskip Hk Hup.
  set (f0 := mkFilter (f_deviceId f) (f_startTime f) (f_endTime f) None None).
  destruct (findAll_query_unpaginated f0 eq_refl eq_refl) as [Hl0 Hs0].
  unfold findAll.
  rewrite (findAll_query_paginated f n k Hlimit ltac:(lia) Hskip ltac:(lia)).
  fold f0. unfold exec. rewrite Hup. cbn [q_limit q_skip skip limit].
  rewrite Hl0, Hs0.
  do 2 eexists. split; [reflexivity|]. split; [reflexivity|].
  split; [reflexivity|]. rewrite length_take. lia.
Qed.

Lemma findAll_page_witness :
  exists everything page,
    findAll (Some (mkFilter None None None None None)) three_records_world
    = (Ok everything, three_records_world)
    /\ findAll (Some (mkFilter None None None (Some 1) (Some 1)))
               three_records_world
       = (Ok page, three_records_world)
    /\ page = take 1 (drop 1 everything)
    /\ (Z.of_nat (length page) <= 1).
Proof.
  apply (findAll_page (mkFilter None None None (Some 1) (Some 1))
           three_records_world 1 1); reflexivity || lia.
Defined.

(** The query of [findByDeviceId] is the one [findAll] builds for the same
    filter with the deviceId added, provided the deviceId is truthy. *)
Lemma findByDeviceId_query_findAll (id : string)
  (filter : option SignalFilterDto) :
  id <> EmptyString ->
  findByDeviceId_query id filter
  = findAll_query
      (Some (mkFilter (Some id)
                      (filter ≫= f_startTime) (filter ≫= f_endTime)
                      (filter ≫= f_limit) (filter ≫= f_skip))).
Proof.
  intros Hne. unfold findByDeviceId_query, findAll_query, range_of.
  destruct id as [|c id]; [congruence|].
  destruct filter as [f|]; cbn; [|reflexivity].
  destruct (f_startTime f) as [a|], (f_endTime f) as [b|]; cbn;
    try destruct (JS.truthy a && JS.truthy b);
    destruct (JS.truthy_opt (f_limit f)), (JS.truthy_opt (f_skip f));
    reflexivity.
Qed.

(** X7. [findByDeviceId(id, filter)] returns what [findAll] returns for the
    same filter with [deviceId: id], as long as [id] is not the empty
    string; for the empty string the two differ: [findByDeviceId] selects
    the records whose deviceId is empty, [findAll] does not filter by device
    at all. *)
Theorem findByDeviceId_as_findAll (id : string)
  (filter : option SignalFilterDto) (w : World) :
  (id <> EmptyString ->
   fst (findByDeviceId id filter w)
   = fst (findAll
            (Some (mkFilter (Some id)
                            (filter ≫= f_startTime) (filter ≫= f_endTime)
                            (filter ≫= f_limit) (filter ≫= f_skip))) w))
  /\ (reachable (store w) = true ->
      fst (findByDeviceId EmptyString None w)
      = Ok (List.filter (fun d => bool_decide (sig_deviceId d = EmptyString))
                        (docs (store w)))
      /\ fst (findAll (Some (mkFilter (Some EmptyString) None None None None)) w)
         = Ok (docs (store w))).
Proof.
  split.
  - intros Hne. unfold findByDeviceId, findAll.
    rewrite (findByDeviceId_query_findAll id filter Hne).
    destruct (exec _ (store w)); reflexivity.
  - intros Hup. unfold findByDeviceId, findAll, exec. rewrite Hup. cbn.
    split; [|f_equal; induction (docs (store w)) as [|d l IH];
                [reflexivity | cbn; f_equal; exact IH]].
    f_equal. apply filter_ext. intros d. apply andb_true_r.
Qed.

Lemma findByDeviceId_as_findAll_witness :
  fst (findByDeviceId "66bb584d4ae73e488c30a072" (Some window_filter)
                      three_records_world)
  = Ok [record_at "66bb584d4ae73e488c30a072" 150].
Proof.
  destruct (findByDeviceId_as_findAll "66bb584d4ae73e488c30a072"
              (Some window_filter) three_records_world) as [Hsame _].
  rewrite Hsame; [reflexivity | discriminate].
Defined.

(** X8. The three queries are read-only and fail closed: [findAll],
    [findByDeviceId] and [getStatistics] never change the store or the
    channel; they return a result exactly when the store answers, logging
    nothing, and otherwise reject with the store's error after logging one
    error. *)
Theorem queries_read_only (filter : option SignalFilterDto) (id : string)
  (scope : option string) (w : World) :
  let r1 := findAll filter w in
  let r2 := findByDeviceId id filter w in
  let r3 := getStatistics scope w in
  (store (snd r1) = store w /\ channel (snd r1) = channel w)
  /\ (store (snd r2) = store w /\ channel (snd r2) = channel w)
  /\ (store (snd r3) = store w /\ channel (snd r3) = channel w)
  /\ (reachable (store w) = true ->
      (exists found, r1 = (Ok found, w))
      /\ (exists found, r2 = (Ok found, w))
      /\ (exists stats, r3 = (Ok stats, w)))
  /\ (reachable (store w) = false ->
      r1 = (Throw StoreFailure, log (LogError "Error finding signals:") w)
      /\ r2 = (Throw StoreFailure,
               log (LogError "Error finding signals by device ID:") w)
      /\ r3 = (Throw StoreFailure,
               log (LogError "Error getting statistics:") w)).
Proof.
  cbn zeta. unfold findAll, findByDeviceId, getStatistics, exec, aggregate.
  destruct (reachable (store w)) eqn:Hup.
  - split; [split; reflexivity|]. split; [split; reflexivity|].
    split; [destruct (List.filter _ _); split; reflexivity|].
    split; [|discriminate]. intros _.
    split; [eauto|]. split; [eauto|].
    destruct (List.filter _ _); eauto.
  - split; [split; reflexivity|]. split; [split; reflexivity|].
    split; [split; reflexivity|].
    split; [discriminate|]. intros _. repeat split.
Qed.

Lemma queries_read_only_witness :
  exists found,
    findAll (Some window_filter) three_records_world
    = (Ok found, three_records_world).
Proof.
  destruct (queries_read_only (Some window_filter) "66bb584d4ae73e488c30a072"
              None three_records_world) as (_ & _ & _ & Hup & _).
  destruct (Hup eq_refl) as [Hfound _]. exact Hfound.
Defined.

Lemma remove_dups_length_le {A : Type} `{EqDecision A} (l : list A) :
  (length (remove_dups l) <= length l)%nat.
Proof.
  induction l as [|x l IH]; cbn; [lia|].
  destruct (decide_rel elem_of x l); cbn; lia.
Qed.

Lemma remove_dups_constant {A : Type} `{EqDecision A} (l : list A) (a : A) :
  l <> [] -> Forall (fun x => x = a) l -> remove_dups l = [a].
Proof.
  induction l as [|x l IH]; [intros Hne; congruence|].
  intros _ Hall. apply Forall_cons in Hall as [-> Hall]. cbn.
  destruct (decide_rel elem_of a l) as [Hin|Hnotin].
  - apply IH; [|exact Hall]. intros ->. inversion Hin.
  - destruct l as [|y l]; [reflexivity|].
    apply Forall_cons in Hall as [-> _].
    exfalso. apply Hnotin. left.
Qed.

(** [findAll] scoped by device only selects what the [$match] stage of
    [getStatistics] selects. *)
Lemma findAll_scope_matches (scope : option string) (w : World) :
  reachable (store w) = true ->
  findAll (Some (mkFilter scope None None None None)) w
  = (Ok (List.filter (matches (matchStage_of scope)) (docs (store w))), w).
Proof.
  intros Hup. unfold findAll, findAll_query, exec, range_of, matchStage_of.
  rewrite Hup. cbn.
  destruct scope as [[|c s]|]; cbn; do 2 f_equal;
    apply filter_ext; intros d; unfold selects, matches; cbn;
    try reflexivity; apply andb_true_r.
Qed.

(** X9. What the statistics count.  With the store answering, totalSignals
    is the number of records [findAll] returns for the same device scope,
    totalDevices never exceeds totalSignals, and statistics scoped to one
    device that has records report exactly one device. *)
Theorem getStatistics_counts (scope : option string) (w : World) :
  reachable (store w) = true ->
  exists stats found,
    getStatistics scope w = (Ok stats, w)
    /\ findAll (Some (mkFilter scope None None None None)) w = (Ok found, w)
    /\ totalSignals stats = Z.of_nat (length found)
    /\ 0 <= totalDevices stats <= totalSignals stats
    /\ (forall device,
          scope = Some device -> device <> EmptyString -> found <> [] ->
          totalDevices stats = 1).
Proof.
  intros Hup. rewrite (findAll_scope_matches scope w Hup).
  unfold getStatistics, aggregate. rewrite Hup.
  set (matched := List.filter (matches (matchStage_of scope)) (docs (store w))).
  assert (Forall (fun d => matches (matchStage_of scope) d = true) matched)
    as Hall.
  { apply Forall_forall. intros d Hd.
    apply list_elem_of_In, filter_In in Hd. tauto. }
  destruct matched as [|d ds] eqn:Hm.
  - do 2 eexists. split; [reflexivity|]. split; [reflexivity|].
    cbn. split; [reflexivity|]. split; [lia|].
    intros device _ _ Hne. congruence.
  - do 2 eexists. split; [reflexivity|]. split; [reflexivity|].
    cbn [totalSignals totalDevices group g_totalSignals g_totalDevices].
    split; [reflexivity|]. split.
    + pose proof (remove_dups_length_le (map sig_deviceId (d :: ds))) as Hle.
      rewrite length_map in Hle. lia.
    + intros device -> Hne _.
      rewrite (remove_dups_constant (map sig_deviceId (d :: ds)) device);
        [reflexivity | discriminate |].
      apply Forall_map. eapply Forall_impl; [exact Hall|].
      intros x Hx. unfold matchStage_of, matches in Hx.
      destruct device as [|c s]; [congruence|]. cbn in Hx.
      apply bool_decide_eq_true in Hx. exact Hx.
Qed.

Lemma getStatistics_counts_witness :
  exists stats,
    getStatistics (Some "66bb584d4ae73e488c30a072") three_records_world
    = (Ok stats, three_records_world)
    /\ totalSignals stats = 3
    /\ totalDevices stats = 1.
Proof.
  destruct (getStatistics_counts (Some "66bb584d4ae73e488c30a072")
              three_records_world eq_refl)
    as (stats & found & Hstats & Hfound & Htotal & _ & Hone).
  exists stats. split; [exact Hstats|]. split.
  - rewrite Htotal. injection Hfound as <-. reflexivity.
  - apply (Hone "66bb584d4ae73e488c30a072");
      [reflexivity | discriminate |].
    injection Hfound as <-. discriminate.
Defined.

End FilterFacts.

(** ** Records by id *)

Section CrudFacts.

Import SignalsCrud.





End CrudFacts.

(** ** Connection lifecycle *)

Section LifecycleFacts.

Import Lifecycle.

(** X12. When the broker accepts every call, [connect] returns, the
    connection is open and the status is [connected]; the service has
    declared the durable fan-out exchange, declared the durable queue and
    bound the two with the empty routing key, in that order, before it
    started consuming; and the publisher is ready, so that a publish goes
    through. *)
Theorem connect_ready (b : Broker) (s : Service) (config : option string)
  (reading : XRayData) :
  connect_resolves b = true ->
  createChannel_resolves b = true ->
  assertExchange_resolves b = true ->
  assertQueue_resolves b = true ->
  bindQueue_resolves b = true ->
  consume_resolves b = true ->
  exists s',
    connect b s = (Returned tt, s')
    /\ fst (getConnectionStatus config s') = connected
    /\ calls s'
       = calls s ++ [AssertExchange "x-ray-exchange" "fanout" true;
                     AssertQueue "x-ray-queue" true;
                     BindQueue "x-ray-queue" "x-ray-exchange" "";
                     Consume "x-ray-queue"]
    /\ publisher_ready (shared s') = true
    /\ fst (RabbitMQService.publishXRayData reading (shared s')) = Ok tt
    /\ published_of (snd (RabbitMQService.publishXRayData reading (shared s')))
       = [reading].
Proof.
  intros H1 H2 H3 H4 H5 H6.
  unfold connect, setupQueue, startConsumer.
  rewrite H1, H2. cbn. rewrite H3, H4, H5. cbn. rewrite H6. cbn.
  eexists. split; [reflexivity|]. cbn.
  rewrite <- !app_assoc. repeat split.
Qed.

Lemma connect_ready_witness :
  exists s',
    connect willing_broker fresh_service = (Returned tt, s')
    /\ fst (getConnectionStatus None s') = connected
    /\ publisher_ready (shared s') = true.
Proof.
  destruct (connect_ready willing_broker fresh_service None scenario_reading
              eq_refl eq_refl eq_refl eq_refl eq_refl eq_refl)
    as (s' & Hconnect & Hstatus & _ & Hready & _).
  exists s'. auto.
Defined.

(** X13. [connect] keeps what it had set up when a later step fails: if the
    broker accepts the connection and refuses the channel, [connect] throws,
    no call is made on the broker, and the service is left with an open
    connection and no channel, so that [getConnectionStatus] answers
    [connected] while [publishXRayData] fails for want of a channel. *)
Theorem connect_without_channel (b : Broker) (s : Service)
  (config : option string) (reading : XRayData) :
  connect_resolves b = true ->
  createChannel_resolves b = false ->
  channel (shared s) = None ->
  exists s',
    connect b s = (Thrown (BrokerRejected "createChannel"), s')
    /\ calls s' = calls s
    /\ fst (getConnectionStatus config s') = connected
    /\ fst (RabbitMQService.publishXRayData reading (shared s'))
       = Throw ChannelNotInitialized.
Proof.
  intros H1 H2 Hnone. unfold connect. rewrite H1, H2. cbn.
  eexists. split; [reflexivity|]. cbn.
  unfold RabbitMQService.publishXRayData. cbn. rewrite Hnone. auto.
Qed.

Lemma connect_without_channel_witness :
  exists s',
    connect channelless_broker fresh_service
    = (Thrown (BrokerRejected "createChannel"), s')
    /\ fst (getConnectionStatus None s') = connected.
Proof.
  destruct (connect_without_channel channelless_broker fresh_service None
              scenario_reading eq_refl eq_refl eq_refl)
    as (s' & Hconnect & _ & Hstatus & _).
  exists s'. auto.
Defined.

(** X14. [disconnect] with both [close()] calls resolving leaves the service
    without channel and without connection, whatever it had: the status is
    [disconnected], a publish fails for want of a channel, and nothing
    published or settled before is touched in the rest of the state; a
    second [disconnect] changes neither field. *)
Theorem disconnect_closes (s : Service) (config : option string)
  (reading : XRayData) :
  let s' := disconnect true true s in
  connection s' = None
  /\ channel (shared s') = None
  /\ store (shared s') = store (shared s)
  /\ fst (getConnectionStatus config s') = disconnected
  /\ fst (RabbitMQService.publishXRayData reading (shared s'))
     = Throw ChannelNotInitialized
  /\ connection (disconnect true true s') = None
  /\ channel (shared (disconnect true true s')) = None.
Proof.
  unfold disconnect, getConnectionStatus, RabbitMQService.publishXRayData.
  destruct (channel (shared s)) as [ch|] eqn:Hch,
           (connection s) as [c|] eqn:Hc;
    cbn; rewrite ?Hch, ?Hc; cbn; rewrite ?Hch, ?Hc; cbn;
    repeat split; assumption.
Qed.

(** X15. A [channel.close()] that rejects ends [disconnect] on the spot: the
    error is logged and swallowed, the channel is kept, and the connection,
    if any, is not closed either, so the status still is what it was. *)
Theorem disconnect_channel_close_rejects (s : Service) (ch : Channel)
  (config : option string) (connection_close_resolves : bool) :
  channel (shared s) = Some ch ->
  let s' := disconnect false connection_close_resolves s in
  s' = logged (LogError "Error disconnecting from RabbitMQ:") s
  /\ channel (shared s') = Some ch
  /\ connection s' = connection s
  /\ getConnectionStatus config s' = getConnectionStatus config s.
Proof.
  intros Hch. unfold disconnect. rewrite Hch. cbn. rewrite Hch.
  repeat split.
Qed.

Lemma disconnect_channel_close_rejects_witness :
  channel (shared (disconnect false true
                     (mkService (Some (mkConnection false)) []
                                connected_world)))
  = Some open_channel.
Proof.
  apply (disconnect_channel_close_rejects
           (mkService (Some (mkConnection false)) [] connected_world)
           open_channel None true).
  reflexivity.
Defined.

End LifecycleFacts.

(** ** Device Simulator: single and bulk sends *)

Section SendFacts.

Import RabbitMQService ProducerService.

Lemma available_iff_known (id : string) (this : ProducerService) :
  id ∈ Simulations.getAvailableDevices this <-> is_Some (xrayData this !! id).
Proof.
  unfold Simulations.getAvailableDevices. rewrite list_elem_of_fmap. split.
  - intros [[k v] [-> Hin]]. apply elem_of_map_to_list in Hin. cbn. eauto.
  - intros [v Hv]. exists (id, v). split; [reflexivity|].
    apply elem_of_map_to_list. exact Hv.
Qed.



(** X17. [sendSingleMessage] for a device of the catalog publishes one
    Reading holding the device's entire stored sequence, stamped with the
    current time, when the publisher is ready; when it is not, the
    publisher's error comes back and nothing is published. *)
Theorem sendSingleMessage_whole_sequence (id : string) (this : ProducerService)
  (dev : DeviceData) (w : World) :
  xrayData this !! id = Some dev ->
  (publisher_ready w = true ->
   exists w',
     sendSingleMessage id this w = (Ok tt, w')
     /\ published_of w'
        = published_of w ++ [mkXRayData id (dev_data dev) (clock w)])
  /\ (publisher_ready w = false ->
      exists e w',
        sendSingleMessage id this w = (Throw e, w')
        /\ (e = ChannelNotInitialized \/ e = PublishFailed)
        /\ published_of w' = published_of w).
Proof.
  intros Hdev. split.
  - intros Hready.
    destruct (sendSingleMessage_ready id this dev w Hdev Hready)
      as (w' & Hsend & Hlist & _).
    exists w'. auto.
  - intros Hdown. unfold sendSingleMessage. rewrite Hdev.
    destruct (publishXRayData_not_ready
                (mkXRayData id (dev_data dev) (clock w)) w Hdown)
      as (e & w' & Hpub & Hlist & _).
    rewrite Hpub. exists e, w'. split; [reflexivity|]. split; [|exact Hlist].
    unfold publishXRayData in Hpub.
    destruct (channel w) as [ch|]; [destruct (publish_throws ch)|];
      inversion Hpub; auto.
Qed.

Lemma sendSingleMessage_whole_sequence_witness :
  exists w',
    sendSingleMessage "d1" sample_producer connected_world = (Ok tt, w')
    /\ published_of w'
       = [mkXRayData "d1" (dev_data sample_device) 1735683480000].
Proof.
  destruct (sendSingleMessage_whole_sequence "d1" sample_producer sample_device
              connected_world eq_refl) as [Hready _].
  exact (Hready eq_refl).
Defined.

Lemma not_ready_after_log (e : LogEntry) (w : World) :
  publisher_ready (log e w) = publisher_ready w.
Proof. reflexivity. Qed.




End SendFacts.

(** ** Device Simulator: controller, timers, random sends *)

Section SimulatorFacts.

Import RabbitMQService ProducerService.




(** X23. A simulation outlives publish failures without losing its place:
    [n] ticks fired while the publisher is not ready publish nothing and
    leave the simulation, cursor included, exactly as it was, so the first
    tick on a ready publisher sends the sample the first failed tick would
    have sent. *)
Theorem run_ticks_not_ready (n : nat) (interval : Z) (sim : Simulation)
  (w : World) :
  dev_data (sim_deviceData sim) <> [] ->
  publisher_ready w = false ->
  exists w',
    run_ticks n interval sim w = Some (sim, w')
    /\ published_of w' = published_of w
    /\ publisher_ready w' = false.
Proof.
  intros Hne. revert w.
  induction n as [|n IH]; intros w Hdown; cbn [run_ticks].
  - exists w. auto.
  - destruct (cursor_in_range _ (dataIndex sim) Hne) as [s Hs].
    unfold tick. rewrite Hs.
    destruct (publishXRayData_not_ready
                (mkXRayData (sim_deviceId sim) [s] (clock (sleep interval w)))
                (sleep interval w) Hdown)
      as (e & w1 & Hpub & Hlist & Hch).
    rewrite Hpub.
    set (w2 := log _ w1).
    assert (publisher_ready w2 = false) as Hdown2.
    { subst w2. unfold publisher_ready in *. cbn. rewrite Hch. exact Hdown. }
    destruct (IH w2 Hdown2) as (w' & Hrun & Hlist' & Hdown').
    exists w'. split; [exact Hrun|]. split; [|exact Hdown'].
    rewrite Hlist'. subst w2. exact Hlist.
Qed.

Lemma run_ticks_not_ready_witness :
  exists w',
    run_ticks 3 5000 (mkSimulation "d1" sample_device 0 1) disconnected_world
    = Some (mkSimulation "d1" sample_device 0 1, w')
    /\ published_of w' = [].
Proof.
  destruct (run_ticks_not_ready 3 5000 (mkSimulation "d1" sample_device 0 1)
              disconnected_world) as (w' & Hrun & Hlist & _);
    [discriminate | reflexivity |].
  exists w'. auto.
Defined.

(** What the loop of [stopAllSimulations] does to the registry and to the
    running timers. *)
Lemma stop_each_spec (ks : list string) (this : ProducerService)
  (running : gset nat) (w : World) :
  let r := Simulations.stop_each ks this running w in
  xrayData r.1.1 = xrayData this
  /\ (forall k, simulationIntervals r.1.1 !! k
                = if decide (k ∈ ks) then None
                  else simulationIntervals this !! k)
  /\ r.1.2 ⊆ running
  /\ (forall k t, k ∈ ks -> simulationIntervals this !! k = Some t ->
                  t ∉ r.1.2)
  /\ (forall t, t ∈ running ->
                (forall k, simulationIntervals this !! k <> Some t) ->
                t ∈ r.1.2).
Proof.
  revert this running w.
  induction ks as [|k rest IH]; intros this running w; cbn zeta.
  - cbn. repeat split; try done.
    + intros k t Hin. inversion Hin.
  - cbn [Simulations.stop_each]. unfold Simulations.stopSimulation.
    destruct (simulationIntervals this !! k) as [t0|] eqn:Hk.
    + match goal with
      | |- context [Simulations.stop_each rest ?p ?r ?x] =>
          specialize (IH p r x); cbn zeta in IH;
          destruct (Simulations.stop_each rest p r x) as [[this' running'] w']
      end.
      cbn in *. destruct IH as (Hcat & Hreg & Hincl & Hgone & Hkept).
      split; [exact Hcat|]. split; [|split; [|split]].
      * intros j. rewrite Hreg.
        destruct (decide (j ∈ rest)) as [Hin|Hnotin].
        { rewrite decide_True by (right; exact Hin). reflexivity. }
        destruct (decide (j = k)) as [->|Hne].
        { rewrite decide_True by left. apply lookup_delete_eq. }
        rewrite decide_False
          by (intros Hin; apply elem_of_cons in Hin as [?|?]; done).
        apply lookup_delete_ne. congruence.
      * set_solver.
      * intros j t Hin Hj. apply elem_of_cons in Hin as [->|Hin].
        { rewrite Hk in Hj. injection Hj as <-. set_solver. }
        destruct (decide (j = k)) as [->|Hne].
        { rewrite Hk in Hj. injection Hj as <-. set_solver. }
        apply (Hgone j t Hin). rewrite lookup_delete_ne by congruence.
        exact Hj.
      * intros t Hin Hfree. apply Hkept.
        { apply elem_of_difference. split; [exact Hin|].
          intros Heq. apply elem_of_singleton in Heq as ->.
          exact (Hfree k Hk). }
        intros j Hj. apply lookup_delete_Some in Hj as [_ Hj].
        exact (Hfree j Hj).
    + specialize (IH this running w). cbn zeta in IH.
      destruct (Simulations.stop_each rest this running w)
        as [[this' running'] w'].
      cbn in *. destruct IH as (Hcat & Hreg & Hincl & Hgone & Hkept).
      split; [exact Hcat|]. split; [|split; [exact Hincl|split]].
      * intros j. rewrite Hreg.
        destruct (decide (j ∈ rest)) as [Hin|Hnotin].
        { rewrite decide_True by (right; exact Hin). reflexivity. }
        destruct (decide (j = k)) as [->|Hne].
        { rewrite decide_True by left. exact Hk. }
        rewrite decide_False
          by (intros Hin; apply elem_of_cons in Hin as [?|?]; done).
        reflexivity.
      * intros j t Hin Hj. apply elem_of_cons in Hin as [->|Hin].
        { rewrite Hk in Hj. discriminate Hj. }
        exact (Hgone j t Hin Hj).
      * exact Hkept.
Qed.

(** X20. [stopAllSimulations] empties the registry and clears every timer
    the registry held, leaving the catalog alone; a running timer that the
    registry does not hold is not cleared. *)
Theorem stopAllSimulations_clears_registry (this : ProducerService)
  (running : gset nat) (w : World) :
  let r := Simulations.stopAllSimulations this running w in
  simulationIntervals r.1.1 = ∅
  /\ xrayData r.1.1 = xrayData this
  /\ r.1.2 ⊆ running
  /\ (forall id t, simulationIntervals this !! id = Some t -> t ∉ r.1.2)
  /\ (forall t, t ∈ running ->
                (forall id, simulationIntervals this !! id <> Some t) ->
                t ∈ r.1.2).
Proof.
  cbn zeta. unfold Simulations.stopAllSimulations.
  destruct (stop_each_spec (map_to_list (simulationIntervals this)).*1
              this running w) as (Hcat & Hreg & Hincl & Hgone & Hkept).
  split; [|split; [exact Hcat|split; [exact Hincl|split; [|exact Hkept]]]].
  - apply map_eq. intros k. rewrite Hreg, lookup_empty.
    destruct (decide (k ∈ (map_to_list (simulationIntervals this)).*1))
      as [Hin|Hnotin]; [reflexivity|].
    destruct (simulationIntervals this !! k) as [t|] eqn:Hk; [|reflexivity].
    exfalso. apply Hnotin. apply list_elem_of_fmap. exists (k, t).
    split; [reflexivity|]. apply elem_of_map_to_list. exact Hk.
  - intros id t Hid. apply (Hgone id t); [|exact Hid].
    apply list_elem_of_fmap. exists (id, t).
    split; [reflexivity|]. apply elem_of_map_to_list. exact Hid.
Qed.

Lemma stopAllSimulations_clears_registry_witness :
  let r := Simulations.stopAllSimulations simulating_producer
             ({[0%nat]} ∪ {[5%nat]}) connected_world in
  simulationIntervals r.1.1 = ∅ /\ (0%nat ∉ r.1.2) /\ (5%nat ∈ r.1.2).
Proof.
  destruct (stopAllSimulations_clears_registry simulating_producer
              ({[0%nat]} ∪ {[5%nat]}) connected_world)
    as (Hempty & _ & _ & Hgone & Hkept).
  split; [exact Hempty|]. split.
  - apply (Hgone "d1" 0%nat). reflexivity.
  - apply Hkept.
    + apply elem_of_union_r, elem_of_singleton. reflexivity.
    + intros id Hid. cbn in Hid.
      apply lookup_singleton_Some in Hid as [_ Hid].
      discriminate Hid.
Defined.

(** X21. Starting a second simulation for a device that already has one
    replaces the first timer in the registry without clearing it: both
    timers run, [stopAllSimulations] then clears only the second, and the
    first keeps running with nothing left in the registry to stop it by;
    and the cleanup function of the first simulation, called instead,
    clears the first timer but removes the second one's registry entry. *)
Theorem second_simulation_leaks_timer (id : string) (interval : Z)
  (this : ProducerService) (dev : DeviceData) (w : World) :
  xrayData this !! id = Some dev ->
  simulationIntervals this = ∅ ->
  exists sim1 sim2 this1 this2 w1 w2,
    Simulations.simulateDevice id interval this ∅ w
    = (Ok sim1, this1, {[sim_intervalId sim1]}, w1)
    /\ Simulations.simulateDevice id interval this1 {[sim_intervalId sim1]} w1
       = (Ok sim2, this2, {[sim_intervalId sim1]} ∪ {[sim_intervalId sim2]}, w2)
    /\ sim_intervalId sim1 <> sim_intervalId sim2
    /\ simulationIntervals this2 = {[ id := sim_intervalId sim2 ]}
    /\ (let r := Simulations.stopAllSimulations this2
                   ({[sim_intervalId sim1]} ∪ {[sim_intervalId sim2]}) w2 in
        simulationIntervals r.1.1 = ∅
        /\ r.1.2 = {[sim_intervalId sim1]}
        /\ Simulations.stopSimulation id r.1.1 r.1.2 r.2 = r)
    /\ (let r := Simulations.cleanup sim1 this2
                   ({[sim_intervalId sim1]} ∪ {[sim_intervalId sim2]}) w2 in
        simulationIntervals r.1.1 = ∅
        /\ r.1.2 = {[sim_intervalId sim2]}).
Proof.
  intros Hdev Hempty. do 6 eexists.
  split.
  { unfold Simulations.simulateDevice, simulateDevice. rewrite Hdev.
    rewrite (left_id_L ∅ (∪)). reflexivity. }
  split.
  { unfold Simulations.simulateDevice, simulateDevice. cbn [xrayData].
    rewrite Hdev. reflexivity. }
  cbn [sim_intervalId simulationIntervals nextTimer].
  split; [lia|]. rewrite Hempty, insert_insert_eq.
  split; [reflexivity|].
  cbn zeta. unfold Simulations.stopAllSimulations, Simulations.cleanup.
  cbn [simulationIntervals sim_deviceId sim_intervalId].
  change (<[id:=S (nextTimer this)]> (∅ : gmap string nat))
    with ({[ id := S (nextTimer this) ]} : gmap string nat).
  rewrite map_to_list_singleton. cbn.
  unfold Simulations.stopSimulation. cbn.
  rewrite lookup_singleton_eq. cbn.
  rewrite delete_singleton_eq, lookup_empty.
  split; [split; [reflexivity|split; [|reflexivity]]|split; [reflexivity|]].
  - apply set_eq. intros t. rewrite elem_of_difference, elem_of_union,
      !elem_of_singleton. lia.
  - apply set_eq. intros t. rewrite elem_of_difference, elem_of_union,
      !elem_of_singleton. lia.
Qed.

Lemma second_simulation_leaks_timer_witness :
  exists sim1 sim2 this1 this2 w1 w2,
    Simulations.simulateDevice "d1" 5000 sample_producer ∅ connected_world
    = (Ok sim1, this1, {[sim_intervalId sim1]}, w1)
    /\ Simulations.simulateDevice "d1" 5000 this1 {[sim_intervalId sim1]} w1
       = (Ok sim2, this2, {[sim_intervalId sim1]} ∪ {[sim_intervalId sim2]}, w2)
    /\ sim_intervalId sim1 <> sim_intervalId sim2.
Proof.
  destruct (second_simulation_leaks_timer "d1" 5000 sample_producer
              sample_device connected_world eq_refl eq_refl)
    as (sim1 & sim2 & this1 & this2 & w1 & w2 & H1 & H2 & Hne & _).
  exists sim1, sim2, this1, this2, w1, w2. auto.
Defined.

(** X22. [sendRandomData(count)] on a ready publisher, each draw being an
    index into the list of devices, returns normally after publishing
    exactly [count] Readings, each holding the whole stored sequence of some
    device of the catalog; with an empty catalog and a positive count it
    fails on the first draw, reading [.data] of [undefined], and publishes
    nothing. *)
Theorem sendRandomData_catalog_devices (count : nat) (random : nat -> nat)
  (first : nat) (this : ProducerService) (w : World) :
  (publisher_ready w = true ->
   (forall i, (random i < length (Simulations.getAvailableDevices this))%nat) ->
   exists w' sent,
     Simulations.sendRandomData count random first this w = (Returned tt, w')
     /\ published_of w' = published_of w ++ sent
     /\ length sent = count
     /\ Forall (fun reading =>
                  exists dev, xrayData this !! deviceId reading = Some dev
                              /\ data reading = dev_data dev) sent)
  /\ (xrayData this = ∅ -> (0 < count)%nat ->
      Simulations.sendRandomData count random first this w
      = (Thrown TypeError, w)).
Proof.
  split.
  - intros Hready Hdraw. revert first w Hready.
    induction count as [|count IH]; intros first w Hready;
      cbn [Simulations.sendRandomData].
    + exists w, []. rewrite app_nil_r. repeat split. constructor.
    + unfold Simulations.generateRandomData.
      destruct (lookup_lt_is_Some_2 _ _ (Hdraw first)) as [id Hid].
      rewrite Hid.
      assert (id ∈ Simulations.getAvailableDevices this) as Hin
        by (apply list_elem_of_lookup; eauto).
      apply available_iff_known in Hin as [dev Hdev]. rewrite Hdev.
      destruct (publishXRayData_ready
                  (mkXRayData id (dev_data dev) (clock w)) w Hready)
        as (w1 & Hpub & Hlist & Hready1 & _).
      rewrite Hpub.
      destruct (IH (S first) (sleep 100 w1) Hready1)
        as (w' & sent & Hrun & Hlist' & Hlen & Hall).
      exists w', (mkXRayData id (dev_data dev) (clock w) :: sent).
      split; [exact Hrun|]. split; [|split].
      * rewrite Hlist'.
        change (published_of (sleep 100 w1)) with (published_of w1).
        rewrite Hlist, <- app_assoc. reflexivity.
      * cbn. rewrite Hlen. reflexivity.
      * constructor; [|exact Hall]. exists dev. auto.
  - intros Hempty Hpos. destruct count as [|count]; [lia|].
    cbn [Simulations.sendRandomData].
    unfold Simulations.generateRandomData, Simulations.getAvailableDevices.
    rewrite Hempty, map_to_list_empty. reflexivity.
Qed.

Lemma sendRandomData_catalog_devices_witness :
  exists w' sent,
    Simulations.sendRandomData 3 (fun _ => 0%nat) 0 sample_producer
                               connected_world = (Returned tt, w')
    /\ published_of w' = sent
    /\ length sent = 3%nat.
Proof.
  destruct (sendRandomData_catalog_devices 3 (fun _ => 0%nat) 0
              sample_producer connected_world) as [Hready _].
  destruct (Hready eq_refl) as (w' & sent & Hrun & Hlist & Hlen & _).
  { intros _. vm_compute. lia. }
  exists w', sent. auto.
Defined.

End SimulatorFacts.

(** ** Pre-save middleware and connection set-up, continued *)

Section MiddlewareFacts.

Import SignalSchema Lifecycle.

(** X24. The pre-save middleware is idempotent and touches nothing but
    dataVolume and coordinates: saving a document a second time changes
    nothing, and deviceId, timestamp, data, dataLength, the three speeds and
    the two lifecycle timestamps always pass through unchanged. *)
Theorem preSave_idempotent (this : Signal) :
  preSave (preSave this) = preSave this
  /\ sig_deviceId (preSave this) = sig_deviceId this
  /\ sig_timestamp (preSave this) = sig_timestamp this
  /\ sig_data (preSave this) = sig_data this
  /\ sig_dataLength (preSave this) = sig_dataLength this
  /\ sig_averageSpeed (preSave this) = sig_averageSpeed this
  /\ sig_maxSpeed (preSave this) = sig_maxSpeed this
  /\ sig_minSpeed (preSave this) = sig_minSpeed this
  /\ sig_createdAt (preSave this) = sig_createdAt this
  /\ sig_updatedAt (preSave this) = sig_updatedAt this.
Proof.
  split; [|repeat split].
  destruct this as [id ts samples dl dv avg mx mn coords created updated].
  unfold preSave. cbn.
  f_equal.
  - destruct dl as [n|]; [|reflexivity].
    destruct (JS.truthy n); cbn; [|reflexivity].
    case_bool_decide as Hdv; cbn.
    + reflexivity.
    + destruct (bool_decide (dv = Some (n * 3))) eqn:Hinner; cbn in *;
        [apply bool_decide_eq_true in Hinner; congruence | reflexivity].
  - destruct coords as [c|]; [reflexivity|].
    destruct (0 <? Z.of_nat (length samples)); reflexivity.
Qed.

(** X25. [connect] returns normally exactly when the broker accepts every
    call, and the consumer is started only on a complete topology: a
    [consume] call is issued only after the exchange and the queue were
    declared and bound, each of these calls having resolved. *)
Theorem connect_all_or_error (b : Broker) (s : Service) :
  calls s = [] ->
  (fst (connect b s) = Returned tt
   <-> connect_resolves b = true /\ createChannel_resolves b = true
       /\ assertExchange_resolves b = true /\ assertQueue_resolves b = true
       /\ bindQueue_resolves b = true /\ consume_resolves b = true)
  /\ (Consume queueName ∈ calls (snd (connect b s)) ->
      assertExchange_resolves b = true /\ assertQueue_resolves b = true
      /\ bindQueue_resolves b = true
      /\ calls (snd (connect b s))
         = [AssertExchange exchangeName "fanout" true;
            AssertQueue queueName true;
            BindQueue queueName exchangeName routingKey;
            Consume queueName]).
Proof.
  intros Hcalls. unfold connect, setupQueue, startConsumer.
  destruct b as [c1 c2 c3 c4 c5 c6].
  destruct c1, c2, c3, c4, c5, c6; cbn; rewrite ?Hcalls; cbn;
    (split; [split; [intros H; first [discriminate H | repeat split]
                    | intros (? & ? & ? & ? & ? & ?);
                      first [discriminate | reflexivity]]
            | intros Hin; first [repeat split; reflexivity
                                | exfalso; set_unfold; naive_solver]]).
Qed.

Lemma connect_all_or_error_witness :
  fst (connect willing_broker fresh_service) = Returned tt
  <-> connect_resolves willing_broker = true
      /\ createChannel_resolves willing_broker = true
      /\ assertExchange_resolves willing_broker = true
      /\ assertQueue_resolves willing_broker = true
      /\ bindQueue_resolves willing_broker = true
      /\ consume_resolves willing_broker = true.
Proof.
  apply (connect_all_or_error willing_broker fresh_service). reflexivity.
Defined.

End MiddlewareFacts.
